(** * Room-booking backend (src/lib/app.js): a shallow embedding

    The Express handlers of [src/lib/app.js] talk to one MySQL connection
    (src/lib/db.js).  Each handler is a chain of callbacks, one SQL
    statement per callback.  We model the store as three tables (lists of
    rows), every SQL statement as a pure function on the store, and every
    possible storage failure of a statement by a boolean fault flag: a
    failed statement leaves the store unchanged and makes the callback see
    [err].  Calendar dates are day numbers ([Z]); the wall clock "now" is
    milliseconds since local midnight.  The booking handler is also given
    as a small-step machine (one step per statement), so that several
    calls can be interleaved the way the callbacks of parallel requests
    interleave on the connection. *)

From Stdlib Require Import String Ascii ZArith List Bool Lia Permutation Relations.
Import ListNotations.
Open Scope string_scope.
Open Scope Z_scope.

(** ** JavaScript string helpers *)

Module JS.

(** [s.split(c)] for a one-character separator. *)
Fixpoint split_aux (c : ascii) (s : string) (cur : string) : list string :=
  match s with
  | EmptyString => [cur]
  | String a rest =>
      if Ascii.eqb a c then cur :: split_aux c rest ""
      else split_aux c rest (cur ++ String a "")
  end.

Definition split (c : ascii) (s : string) : list string := split_aux c s "".

Definition is_space (a : ascii) : bool :=
  existsb (Nat.eqb (nat_of_ascii a)) [32; 9; 10; 11; 12; 13]%nat.

Definition digit_val (a : ascii) : option Z :=
  let n := nat_of_ascii a in
  if (48 <=? n)%nat && (n <=? 57)%nat then Some (Z.of_nat (n - 48)) else None.

Definition hex_val (a : ascii) : option Z :=
  let n := nat_of_ascii a in
  if (48 <=? n)%nat && (n <=? 57)%nat then Some (Z.of_nat (n - 48))
  else if (97 <=? n)%nat && (n <=? 102)%nat then Some (Z.of_nat (n - 87))
  else if (65 <=? n)%nat && (n <=? 70)%nat then Some (Z.of_nat (n - 55))
  else None.

(** Leading digits of radix [radix] ([val] reads one), accumulated into
    [acc]. *)
Fixpoint digits (val : ascii -> option Z) (radix : Z) (s : string) (acc : Z)
    (seen : bool) : option Z :=
  match s with
  | String a rest =>
      match val a with
      | Some d => digits val radix rest (acc * radix + d) true
      | None => if seen then Some acc else None
      end
  | EmptyString => if seen then Some acc else None
  end.

(** After the sign: a [0x] or [0X] prefix selects radix 16, otherwise
    radix 10. *)
Definition parse_unsigned (s : string) : option Z :=
  match s with
  | String z (String x rest) =>
      if Ascii.eqb z "0" && (Ascii.eqb x "x" || Ascii.eqb x "X")
      then digits hex_val 16 rest 0 false
      else digits digit_val 10 s 0 false
  | _ => digits digit_val 10 s 0 false
  end.

(** [parseInt(s)] with no radix: skip leading white space, optional sign,
    then the leading digits; [None] stands for NaN.  Exact integers: the
    rounding of numbers beyond 2^53 to doubles is not modelled. *)
Fixpoint parseInt (s : string) : option Z :=
  match s with
  | String a rest =>
      if is_space a then parseInt rest
      else if Ascii.eqb a "-" then option_map Z.opp (parse_unsigned rest)
      else if Ascii.eqb a "+" then parse_unsigned rest
      else parse_unsigned s
  | EmptyString => None
  end.

(** [s.endsWith(suf)]. *)
Definition endsWith (s suf : string) : bool :=
  (String.length suf <=? String.length s)%nat &&
  String.eqb (substring (String.length s - String.length suf)
                        (String.length suf) s) suf.

Definition lower (a : ascii) : ascii :=
  let n := nat_of_ascii a in
  if (65 <=? n)%nat && (n <=? 90)%nat then ascii_of_nat (n + 32) else a.

(** [s.toLowerCase()] on ASCII text. *)
Fixpoint toLowerCase (s : string) : string :=
  match s with
  | EmptyString => EmptyString
  | String a rest => String (lower a) (toLowerCase rest)
  end.

(** JavaScript truthiness of a string: non-empty. *)
Definition truthy (s : string) : bool := negb (String.eqb s "").

End JS.

(** ** isTimeSlotValid (app.js, lines 35-51)

    [now] is the local time of day in milliseconds.  [slotEnd] is today's
    date with [setHours(endHour, endMinute, 0, 0)]: local midnight plus
    [endHour] hours and [endMinute] minutes; a NaN component makes it an
    invalid date, with which [now < slotEnd] is false.  Not modelled: an
    hour count so large (billions of hours) that [slotEnd] leaves the
    range of [Date], which would make it invalid as well. *)
Definition isTimeSlotValid (now : Z) (timeSlot : string) : bool :=
  match JS.split "-" timeSlot with
  | [_; endTime] =>
      let parts := JS.split ":" endTime in
      let endHour := JS.parseInt (nth 0 parts "") in
      let endMinute :=
        match nth_error parts 1 with Some m => JS.parseInt m | None => None end in
      match endHour, endMinute with
      | Some h, Some m => now <? (h * 60 + m) * 60000
      | _, _ => false
      end
  | _ => false
  end.

(** ** userType (app.js, lines 140-142) *)
Definition userType (email : string) : string :=
  if JS.endsWith email "@mfu.th" then "staff"
  else if JS.endsWith email "@mfu.ac.th" then "lecturer"
  else "student".

Definition hours (h : Z) : Z := h * 3600000.

Example valid_slot_morning : isTimeSlotValid (hours 9) "08:00-10:00" = true.
Proof. reflexivity. Qed.
Example valid_slot_lapsed : isTimeSlotValid (hours 11) "08:00-10:00" = false.
Proof. reflexivity. Qed.
Example userType_staff : userType "a@mfu.th" = "staff".
Proof. reflexivity. Qed.
Example userType_lecturer : userType "a@mfu.ac.th" = "lecturer".
Proof. reflexivity. Qed.

(** ** The store (tables [rooms], [room_availability], [bookings])

    Only the columns the modelled handlers read or write are kept. *)

Inductive slot_status := Free | Pending | Reserved | Disabled.

Definition slot_status_eqb (a b : slot_status) : bool :=
  match a, b with
  | Free, Free | Pending, Pending | Reserved, Reserved | Disabled, Disabled => true
  | _, _ => false
  end.

Record room := mkRoom { rm_id : string; rm_is_disabled : Z }.

Record availability_row := mkAvail {
  ra_time_slot : string;
  ra_status : slot_status;
  ra_room_id : string;
  ra_date : Z;
  ra_student_id : option string;
  ra_booking_id : option string
}.

Record booking := mkBooking {
  bk_id : string;
  bk_student_id : string;
  bk_room_id : string;
  bk_date : Z;
  bk_time_slot : string;
  bk_status : string;
  bk_approved_by : option string;
  bk_approved_at : option Z
}.

Record db := mkDb {
  rooms : list room;
  room_availability : list availability_row;
  bookings : list booking
}.

Definition empty_db : db := mkDb [] [] [].

Definition set_rooms (d : db) (rs : list room) : db :=
  mkDb rs (room_availability d) (bookings d).
Definition set_avail (d : db) (rs : list availability_row) : db :=
  mkDb (rooms d) rs (bookings d).
Definition set_bookings (d : db) (bs : list booking) : db :=
  mkDb (rooms d) (room_availability d) bs.

Definition with_status (st : slot_status) (r : availability_row) : availability_row :=
  mkAvail (ra_time_slot r) st (ra_room_id r) (ra_date r) (ra_student_id r) (ra_booking_id r).

(** [WHERE room_id = ? AND availability_date = ? AND time_slot = ?] *)
Definition slot_key (roomId : string) (date : Z) (timeSlot : string)
    (r : availability_row) : bool :=
  String.eqb (ra_room_id r) roomId && (ra_date r =? date) &&
  String.eqb (ra_time_slot r) timeSlot.

(** [(student_id IS NULL OR student_id = '')] *)
Definition unbound (r : availability_row) : bool :=
  match ra_student_id r with None => true | Some s => String.eqb s "" end.

(** JavaScript truthiness of the [student_id] column value. *)
Definition student_truthy (r : availability_row) : bool :=
  match ra_student_id r with None => false | Some s => JS.truthy s end.

(** [UPDATE rooms SET is_disabled = v WHERE id = ?] *)
Definition update_room_disabled (roomId : string) (v : Z) (d : db) : db :=
  set_rooms d (map (fun rm => if String.eqb (rm_id rm) roomId
                              then mkRoom (rm_id rm) v else rm) (rooms d)).

(** Responses of the handlers: [res.json(...)] or [res.status(code).json({error})]. *)
Inductive response :=
| RBooked (bookingId : string)
| RSuccess (message : string)
| RSlots (rows : list availability_row)
| RError (code : Z) (message : string).

(** ** POST /api/bookings (app.js, lines 313-392)

    One step per SQL statement.  [today] is [new Date().toISOString()]'s
    date at the start of the request, [bookingId] is ['book_' + Date.now()]
    at the insert. *)

Record book_args := mkBookArgs {
  ba_studentId : string;
  ba_roomId : string;
  ba_timeSlot : string;
  ba_today : Z;
  ba_bookingId : string
}.

Record book_faults := mkBookFaults {
  f_check : bool;        (* checkSql *)
  f_slot_check : bool;   (* slotCheckSql *)
  f_status_check : bool; (* statusCheckSql *)
  f_insert : bool;       (* bookingSql *)
  f_update : bool;       (* updateSql *)
  f_rollback : bool      (* rollbackSql *)
}.

Definition no_book_faults : book_faults := mkBookFaults false false false false false false.

Inductive book_pc :=
| BkCheck | BkSlotCheck | BkStatusCheck | BkInsert | BkUpdate | BkRollback | BkDone.

Record book_thread := mkThread { bk_pc : book_pc; bk_reply : option response }.

Definition finish (r : response) : book_thread := mkThread BkDone (Some r).
Definition goto (pc : book_pc) : book_thread := mkThread pc None.

(** The refined rejection message (lines 353-360). *)
Definition status_message (r : availability_row) : string :=
  match ra_status r with
  | Pending => "Time slot is already pending approval"
  | Reserved => "Time slot is already reserved"
  | _ => if student_truthy r then "Time slot is already booked by another student"
         else "Time slot not available"
  end.

(** The synchronous part of the handler (lines 314-324). *)
Definition book_start (now : Z) (a : book_args) : book_thread :=
  if negb (JS.truthy (ba_studentId a) && JS.truthy (ba_roomId a)
           && JS.truthy (ba_timeSlot a))
  then finish (RError 400 "Missing required fields")
  else if negb (isTimeSlotValid now (ba_timeSlot a))
  then finish (RError 400 "This time slot has already passed and cannot be booked")
  else goto BkCheck.

Definition book_step (a : book_args) (f : book_faults) (t : book_thread) (d : db)
    : book_thread * db :=
  let key := slot_key (ba_roomId a) (ba_today a) (ba_timeSlot a) in
  match bk_pc t with
  | BkCheck =>
      if f_check f then (finish (RError 500 "Server error checking bookings"), d)
      else if existsb (fun b => String.eqb (bk_student_id b) (ba_studentId a)
                                && (bk_date b =? ba_today a)) (bookings d)
      then (finish (RError 400 "You can only book one slot per day"), d)
      else (goto BkSlotCheck, d)
  | BkSlotCheck =>
      if f_slot_check f then (finish (RError 500 "Server error checking availability"), d)
      else if existsb (fun r => key r && slot_status_eqb (ra_status r) Free && unbound r)
                      (room_availability d)
      then (goto BkInsert, d)
      else (goto BkStatusCheck, d)
  | BkStatusCheck =>
      if f_status_check f then (finish (RError 400 "Time slot not available"), d)
      else match find key (room_availability d) with
           | None => (finish (RError 400 "Time slot not available"), d)
           | Some r => (finish (RError 400 (status_message r)), d)
           end
  | BkInsert =>
      (* [bookings.id] is the primary key: a duplicate id is an error. *)
      if f_insert f || existsb (fun b => String.eqb (bk_id b) (ba_bookingId a)) (bookings d)
      then (finish (RError 500 "Database error creating booking"), d)
      else (goto BkUpdate,
            set_bookings d (bookings d ++
              [mkBooking (ba_bookingId a) (ba_studentId a) (ba_roomId a) (ba_today a)
                         (ba_timeSlot a) "Pending" None None]))
  | BkUpdate =>
      if f_update f
      then (* the DELETE is issued without a callback; the reply is sent at once *)
        (mkThread BkRollback (Some (RError 500 "Booking update failed")), d)
      else (finish (RBooked (ba_bookingId a)),
            set_avail d (map (fun r => if key r
                                       then mkAvail (ra_time_slot r) Pending (ra_room_id r)
                                              (ra_date r) (Some (ba_studentId a))
                                              (ra_booking_id r)
                                       else r) (room_availability d)))
  | BkRollback =>
      if f_rollback f then (mkThread BkDone (bk_reply t), d)
      else (mkThread BkDone (bk_reply t),
            set_bookings d (filter (fun b => negb (String.eqb (bk_id b) (ba_bookingId a)))
                                   (bookings d)))
  | BkDone => (t, d)
  end.

Fixpoint book_run (fuel : nat) (a : book_args) (f : book_faults)
    (t : book_thread) (d : db) : book_thread * db :=
  match fuel with
  | O => (t, d)
  | S n => let '(t', d') := book_step a f t d in book_run n a f t' d'
  end.

(** A call of the handler that runs alone: at most six statements. *)
Definition book (now : Z) (a : book_args) (f : book_faults) (d : db) : response * db :=
  let '(t, d') := book_run 6 a f (book_start now a) d in
  (match bk_reply t with Some r => r | None => RError 500 "no reply" end, d').

(** ** PUT /api/bookings/:bookingId/status (app.js, lines 471-516) *)

Record decide_faults := mkDecideFaults {
  f_get : bool;          (* getBookingSql *)
  f_upd_booking : bool;  (* updateBookingSql *)
  f_upd_slot : bool      (* updateAvailabilitySql *)
}.

Definition no_decide_faults : decide_faults := mkDecideFaults false false false.

(** [status.toLowerCase() === 'approved' ? 'reserved' : 'free'] *)
Definition availability_status (status : string) : slot_status :=
  if String.eqb (JS.toLowerCase status) "approved" then Reserved else Free.

(** [UPDATE bookings SET status = ?, approved_by = ?, approved_at = NOW() WHERE id = ?] *)
Definition update_booking (bookingId status : string) (approvedBy : option string)
    (ts : Z) (bs : list booking) : list booking :=
  map (fun b => if String.eqb (bk_id b) bookingId
                then mkBooking (bk_id b) (bk_student_id b) (bk_room_id b) (bk_date b)
                       (bk_time_slot b) status approvedBy (Some ts)
                else b) bs.

(** [UPDATE room_availability SET status = ?
     WHERE room_id = ? AND availability_date = ? AND time_slot = ? AND student_id = ?] *)
Definition update_bound_slot (st : slot_status) (b : booking)
    (rs : list availability_row) : list availability_row :=
  map (fun r => if slot_key (bk_room_id b) (bk_date b) (bk_time_slot b) r
                   && match ra_student_id r with
                      | Some s => String.eqb s (bk_student_id b)
                      | None => false
                      end
                then with_status st r else r) rs.

(** [ts] is the store's [NOW()]. *)
Definition decide (bookingId status : string) (approvedBy : option string) (ts : Z)
    (f : decide_faults) (d : db) : response * db :=
  if f_get f then (RError 500 "Failed to get booking details", d)
  else match find (fun b => String.eqb (bk_id b) bookingId) (bookings d) with
  | None => (RError 404 "Booking not found", d)
  | Some b =>
      if f_upd_booking f then (RError 500 "Update failed", d)
      else
        let d1 := set_bookings d (update_booking bookingId status approvedBy ts (bookings d)) in
        let d2 := if f_upd_slot f then d1
                  else set_avail d1 (update_bound_slot (availability_status status) b
                                                       (room_availability d1)) in
        (* an error of the slot write is only logged *)
        (RSuccess "Booking status updated", d2)
  end.

(** ** resetRoomStatuses (app.js, lines 15-33)

    [localToday] is the local calendar date at the run ([toLocaleDateString]);
    the statement targets the next day. *)
Definition reset_sql (date : Z) (d : db) : db :=
  set_avail d (map (fun r =>
    if (ra_date r =? date) && (slot_status_eqb (ra_status r) Pending
                                || slot_status_eqb (ra_status r) Reserved)
    then mkAvail (ra_time_slot r) Free (ra_room_id r) (ra_date r) None None
    else r) (room_availability d)).

Definition resetRoomStatuses (localToday : Z) (fault : bool) (d : db) : db :=
  if fault then d else reset_sql (localToday + 1) d.

(** ** PATCH /api/rooms/:roomId/disable (app.js, lines 831-889) *)

Record room_faults := mkRoomFaults {
  f_room_check : bool;   (* checkSql *)
  f_room_slots : bool;   (* disableSlotsSql / enableSlotsSql *)
  f_room_row : bool      (* disableRoomSql / enableRoomSql *)
}.

Definition no_room_faults : room_faults := mkRoomFaults false false false.

Definition disable_room (roomId : string) (today : Z) (f : room_faults) (d : db)
    : response * db :=
  let nonFreeCount :=
    length (filter (fun r => String.eqb (ra_room_id r) roomId && (ra_date r =? today)
                             && negb (slot_status_eqb (ra_status r) Free))
                   (room_availability d)) in
  if f_room_check f then (RError 500 "Server error", d)
  else if (0 <? nonFreeCount)%nat
  then (RError 400 "Cannot disable room with booked or pending slots", d)
  else if f_room_slots f then (RError 500 "Failed to disable time slots", d)
  else
    let d1 := set_avail d (map (fun r =>
                if String.eqb (ra_room_id r) roomId && (ra_date r =? today)
                   && slot_status_eqb (ra_status r) Free
                then with_status Disabled r else r) (room_availability d)) in
    if f_room_row f then (RError 500 "Failed to disable room", d1)
    else (RSuccess "Room disabled successfully", update_room_disabled roomId 1 d1).

(** ** PATCH /api/rooms/:roomId/enable (app.js, lines 891-929) *)
Definition enable_room (roomId : string) (today : Z) (f : room_faults) (d : db)
    : response * db :=
  if f_room_slots f then (RError 500 "Failed to enable time slots", d)
  else
    let d1 := set_avail d (map (fun r =>
                if String.eqb (ra_room_id r) roomId && (ra_date r =? today)
                   && slot_status_eqb (ra_status r) Disabled
                then with_status Free r else r) (room_availability d)) in
    if f_room_row f then (RError 500 "Failed to enable room", d1)
    else (RSuccess "Room enabled successfully", update_room_disabled roomId 0 d1).

(** ** PATCH /api/rooms/:roomId/time-slots/:timeSlot/disable (app.js, lines 931-979)

    [results[0].total === results[0].disabled] compares the cells as
    mysql2 returns them: [COUNT( * )] is a BIGINT, read as a number, and
    [SUM(status = 'disabled')] a DECIMAL, read as a string (NULL over no
    rows).  The closing room update is issued without a callback. *)
Inductive js_cell := CellNum (n : Z) | CellStr (s : string) | CellNull.

(** [===] on two cells. *)
Definition cell_strict_eq (x y : js_cell) : bool :=
  match x, y with
  | CellNum a, CellNum b => Z.eqb a b
  | CellStr a, CellStr b => String.eqb a b
  | CellNull, CellNull => true
  | _, _ => false
  end.

Fixpoint decimal_aux (fuel n : nat) (acc : string) : string :=
  match fuel with
  | O => acc
  | S k =>
      let acc' := String (ascii_of_nat (48 + n mod 10)) acc in
      if Nat.ltb n 10 then acc' else decimal_aux k (n / 10) acc'
  end.

(** The text of a DECIMAL with scale 0. *)
Definition decimal_string (n : nat) : string := decimal_aux (S n) n "".

Record slot_disable_faults := mkSlotDisableFaults {
  f_sd_check : bool; f_sd_update : bool; f_sd_count : bool; f_sd_room : bool
}.

Definition disable_slot (roomId timeSlot : string) (today : Z)
    (f : slot_disable_faults) (d : db) : response * db :=
  let key := slot_key roomId today timeSlot in
  if f_sd_check f then (RError 500 "Server error", d)
  else match find key (room_availability d) with
  | None => (RError 404 "Time slot not found", d)
  | Some r =>
      if negb (slot_status_eqb (ra_status r) Free)
      then (RError 400 "Can only disable free time slots", d)
      else if f_sd_update f then (RError 500 "Failed to disable time slot", d)
      else
        let d1 := set_avail d (map (fun r => if key r then with_status Disabled r else r)
                                   (room_availability d)) in
        if f_sd_count f then (RError 500 "Server error", d1)
        else
          let today_rows := filter (fun r => String.eqb (ra_room_id r) roomId
                                             && (ra_date r =? today)) (room_availability d1) in
          let disabled_rows :=
            filter (fun r => slot_status_eqb (ra_status r) Disabled) today_rows in
          let total := CellNum (Z.of_nat (length today_rows)) in
          let disabled := match today_rows with
                          | [] => CellNull
                          | _ => CellStr (decimal_string (length disabled_rows))
                          end in
          let d2 := if cell_strict_eq total disabled && negb (f_sd_room f)
                    then update_room_disabled roomId 1 d1 else d1 in
          (RSuccess "", d2)
  end.

(** ** PATCH /api/rooms/:roomId/time-slots/:timeSlot/enable (app.js, lines 981-1001)

    The room update is issued without a callback, after which the reply
    is sent. *)
Record slot_enable_faults := mkSlotEnableFaults { f_se_slot : bool; f_se_room : bool }.

Definition enable_slot (roomId timeSlot : string) (today : Z)
    (f : slot_enable_faults) (d : db) : response * db :=
  if f_se_slot f then (RError 500 "Failed to enable time slot", d)
  else
    let d1 := set_avail d (map (fun r =>
                if slot_key roomId today timeSlot r && slot_status_eqb (ra_status r) Disabled
                then with_status Free r else r) (room_availability d)) in
    let d2 := if f_se_room f then d1 else update_room_disabled roomId 0 d1 in
    (RSuccess "", d2).

(** ** GET /api/rooms/:roomId/time-slots (app.js, lines 244-311) *)

Definition timeSlots : list string :=
  ["08:00-10:00"; "10:00-12:00"; "13:00-15:00"; "15:00-17:00"].

(** [ORDER BY ra.time_slot] *)
Fixpoint insert_by_slot (r : availability_row) (rs : list availability_row)
    : list availability_row :=
  match rs with
  | [] => [r]
  | r' :: rest => if String.leb (ra_time_slot r) (ra_time_slot r')
                  then r :: r' :: rest else r' :: insert_by_slot r rest
  end.

Definition order_by_slot (rs : list availability_row) : list availability_row :=
  fold_right insert_by_slot [] rs.

(** [SELECT ra.* FROM room_availability ra WHERE ra.room_id = ? AND
     ra.availability_date = ? ORDER BY ra.time_slot] *)
Definition select_slots (roomId : string) (today : Z) (d : db) : list availability_row :=
  order_by_slot (filter (fun r => String.eqb (ra_room_id r) roomId && (ra_date r =? today))
                        (room_availability d)).

(** [INSERT IGNORE INTO room_availability (time_slot, status, room_id,
     availability_date) VALUES (?, 'free', ?, ?)]: a row with the same
     (room, date, time slot) key makes the insert a no-op. *)
Definition insert_ignore_slot (roomId : string) (today : Z) (slot : string) (d : db) : db :=
  if existsb (slot_key roomId today slot) (room_availability d) then d
  else set_avail d (room_availability d ++ [mkAvail slot Free roomId today None None]).

Record slots_faults := mkSlotsFaults {
  f_select : bool;          (* the first SELECT *)
  f_inserts : list bool;    (* one flag per INSERT IGNORE, in issue order *)
  f_fetch : bool            (* the SELECT after the inserts *)
}.

Definition no_slots_faults : slots_faults := mkSlotsFaults false [] false.

(** The inserts are issued one after the other; each callback records its
    error, and the last one to complete answers. *)
Fixpoint run_inserts (roomId : string) (today : Z) (labels : list string)
    (faults : list bool) (d : db) : db * bool :=
  match labels with
  | [] => (d, false)
  | l :: rest =>
      let fault := hd false faults in
      let d1 := if fault then d else insert_ignore_slot roomId today l d in
      let '(d2, err) := run_inserts roomId today rest (tl faults) d1 in
      (d2, fault || err)
  end.

Definition get_time_slots (now : Z) (roomId : string) (today : Z) (f : slots_faults)
    (d : db) : response * db :=
  if f_select f then (RError 500 "Server error", d)
  else
    let validSlots := filter (fun r => isTimeSlotValid now (ra_time_slot r))
                             (select_slots roomId today d) in
    if negb (Nat.eqb (length validSlots) 0) then (RSlots validSlots, d)
    else
      let validTimeSlots := filter (isTimeSlotValid now) timeSlots in
      if Nat.eqb (length validTimeSlots) 0 then (RSlots [], d)
      else
        let '(d1, err) := run_inserts roomId today validTimeSlots (f_inserts f) d in
        if err then (RError 500 "Failed to initialize time slots", d1)
        else if f_fetch f then (RError 500 "Server error", d1)
        else (RSlots (filter (fun r => isTimeSlotValid now (ra_time_slot r))
                             (select_slots roomId today d1)), d1).

(** ** POST /api/rooms (app.js, lines 774-813)

    The slot inserts are plain INSERTs whose errors (a duplicate key among
    them) are ignored. *)
Definition insert_slot (roomId : string) (date : Z) (slot : string) (d : db) : db :=
  insert_ignore_slot roomId date slot d.

(** The [dates.forEach(... timeSlots.forEach(...))] loop, one fault flag
    per INSERT. *)
Fixpoint insert_slots (roomId : string) (ts : list (Z * string)) (fs : list bool)
    (d : db) : db :=
  match ts with
  | [] => d
  | (date, s) :: rest =>
      insert_slots roomId rest (tl fs) (if hd false fs then d else insert_slot roomId date s d)
  end.

Definition create_room (roomId : string) (today tomorrow : Z) (f_room : bool)
    (f_slots : list bool) (d : db) : response * db :=
  if f_room || existsb (fun rm => String.eqb (rm_id rm) roomId) (rooms d)
  then (RError 500 "Failed to create room", d)
  else
    let d1 := set_rooms d (rooms d ++ [mkRoom roomId 0]) in
    let targets := flat_map (fun date => map (fun s => (date, s)) timeSlots) [today; tomorrow] in
    (RSuccess "", insert_slots roomId targets f_slots d1).

(** ** The operations of the store, one call at a time *)

Inductive op_step : db -> db -> Prop :=
| OpBook now a f d : op_step d (snd (book now a f d))
| OpDecide bid st ap ts f d : op_step d (snd (decide bid st ap ts f d))
| OpReset day fault d : op_step d (resetRoomStatuses day fault d)
| OpDisableRoom rid today f d : op_step d (snd (disable_room rid today f d))
| OpEnableRoom rid today f d : op_step d (snd (enable_room rid today f d))
| OpDisableSlot rid ts today f d : op_step d (snd (disable_slot rid ts today f d))
| OpEnableSlot rid ts today f d : op_step d (snd (enable_slot rid ts today f d))
| OpTimeSlots now rid today f d : op_step d (snd (get_time_slots now rid today f d))
| OpCreateRoom rid today tomorrow fr fs d :
    op_step d (snd (create_room rid today tomorrow fr fs d)).

Inductive reachable : db -> Prop :=
| reach_empty : reachable empty_db
| reach_step d d' : reachable d -> op_step d d' -> reachable d'.

(** ** Parallel calls of POST /api/bookings

    Each call is a thread (its arguments, its faults and its program
    point); a schedule names, step by step, the thread whose next callback
    runs. *)
Definition call := (book_args * book_faults * book_thread)%type.

Definition step_call (c : call) (d : db) : call * db :=
  let '(a, f, t) := c in
  let '(t', d') := book_step a f t d in ((a, f, t'), d').

Fixpoint run_schedule (sched : list nat) (cs : list call) (d : db) : list call * db :=
  match sched with
  | [] => (cs, d)
  | i :: rest =>
      match nth_error cs i with
      | None => run_schedule rest cs d
      | Some c =>
          let '(c', d') := step_call c d in
          run_schedule rest (firstn i cs ++ c' :: skipn (S i) cs) d'
      end
  end.

Definition call_reply (c : call) : option response := let '(_, _, t) := c in bk_reply t.

(** ** Definitions used by the statements *)

(** The row that [bookingSql] inserts. *)
Definition new_booking (a : book_args) : booking :=
  mkBooking (ba_bookingId a) (ba_studentId a) (ba_roomId a) (ba_today a)
            (ba_timeSlot a) "Pending" None None.

(** The effect of [updateSql] on the slot rows. *)
Definition mark_pending (a : book_args) (rs : list availability_row) : list availability_row :=
  map (fun r => if slot_key (ba_roomId a) (ba_today a) (ba_timeSlot a) r
                then mkAvail (ra_time_slot r) Pending (ra_room_id r) (ra_date r)
                       (Some (ba_studentId a)) (ra_booking_id r)
                else r) rs.

Definition occupied (r : availability_row) : Prop :=
  ra_status r = Pending \/ ra_status r = Reserved.

(** A booking row whose composite key (room, date, time slot, student)
    is the one of slot row [r] bound to [s]. *)
Definition booking_matches (b : booking) (r : availability_row) (s : string) : Prop :=
  bk_room_id b = ra_room_id r /\ bk_date b = ra_date r /\
  bk_time_slot b = ra_time_slot r /\ bk_student_id b = s.

(** Every pending or reserved slot is bound to a student, and a booking
    row with the slot's composite key exists. *)
Definition bound_and_booked (d : db) : Prop :=
  forall r, In r (room_availability d) -> occupied r ->
  exists s, ra_student_id r = Some s /\
            exists b, In b (bookings d) /\ booking_matches b r s.

(** Every booking row of [d] has a row in [d'] with the same composite key. *)
Definition bookings_keys_kept (d d' : db) : Prop :=
  forall b, In b (bookings d) ->
  exists b', In b' (bookings d') /\ bk_room_id b' = bk_room_id b /\
             bk_date b' = bk_date b /\ bk_time_slot b' = bk_time_slot b /\
             bk_student_id b' = bk_student_id b.

(** The cross-table invariant in the words of the spec (section 8). *)
Definition spec_slot_invariant (d : db) : Prop :=
  forall r, In r (room_availability d) ->
  (occupied r -> ra_student_id r <> None) /\
  (ra_status r = Free \/ ra_status r = Disabled -> ra_student_id r = None) /\
  (ra_status r = Pending <->
     exists s b, ra_student_id r = Some s /\ In b (bookings d) /\
                 booking_matches b r s /\ bk_status b = "Pending") /\
  (ra_status r = Reserved <->
     exists s b, ra_student_id r = Some s /\ In b (bookings d) /\
                 booking_matches b r s /\ bk_status b = "Approved").

(** The slot status of a decision in the words of the spec:
    [Approved -> reserved], anything else [-> free]. *)
Definition spec_decision_status (status : string) : slot_status :=
  if String.eqb status "Approved" then Reserved else Free.

(** ** Keys of the tables *)

(** The unique key [(room_id, availability_date, time_slot)] of a slot row. *)
Definition row_key (r : availability_row) : string * Z * string :=
  (ra_room_id r, ra_date r, ra_time_slot r).

(** The pair [(student_id, booking_date)] that [checkSql] looks up. *)
Definition booking_day (b : booking) : string * Z := (bk_student_id b, bk_date b).

(** [d'] keeps the slot keys of [d], in order, and may add keys after
    them; unique keys stay unique. *)
Definition keys_grow (d d' : db) : Prop :=
  exists ext, map row_key (room_availability d') = (map row_key (room_availability d) ++ ext)%list /\
              (NoDup (map row_key (room_availability d)) ->
               NoDup (map row_key (room_availability d'))).

(** The slot of key [key] is the single row [x]. *)
Definition only_row (key : availability_row -> bool) (x : availability_row) (d : db) : Prop :=
  In x (room_availability d) /\
  forall y, In y (room_availability d) -> key y = true -> y = x.

(** ** GET /api/bookings/student/:studentId/has-booked-today (app.js, lines 434-448) *)

Inductive has_booked_reply :=
| HBError (code : Z) (msg : string)
| HBReply (hasBooked : bool).

(** [SELECT COUNT( * ) FROM bookings WHERE student_id = ? AND booking_date = ?];
    [fault] is an error of the query. *)
Definition has_booked_today (studentId : string) (today : Z) (fault : bool) (d : db)
    : has_booked_reply :=
  if fault then HBError 500 "Server error"
  else HBReply (Nat.ltb 0 (length (filter (fun b => String.eqb (bk_student_id b) studentId
                                                    && (bk_date b =? today))
                                          (bookings d)))).

(** ** POST /api/login (app.js, lines 66-76 and 108-156) *)

(** JavaScript values of a JSON request body. *)
Inductive jsval :=
| JUndefined | JNull | JBool (b : bool) | JNum (z : Z) | JNaN | JStr (s : string) | JObj.

Definition js_truthy (v : jsval) : bool :=
  match v with
  | JUndefined | JNull | JNaN => false
  | JBool b => b
  | JNum z => negb (z =? 0)
  | JStr s => JS.truthy s
  | JObj => true
  end.

(** A parsed JSON object: its properties in order; [JSON.parse] keeps the
    last of duplicated keys, and a missing property is [undefined]. *)
Definition body := list (string * jsval).

Definition body_get (k : string) (b : body) : jsval :=
  match find (fun p => String.eqb (fst p) k) (rev b) with
  | Some (_, v) => v
  | None => JUndefined
  end.

(** The validation middleware: a POST or PUT needs a body with at least
    one property. *)
Definition body_present (method : string) (b : body) : bool :=
  if String.eqb method "POST" || String.eqb method "PUT"
  then match b with [] => false | _ => true end
  else true.

(** A row of [users]. *)
Record user := mkUser {
  u_id : string; u_full_name : string; u_email : string; u_password : string; u_role : string
}.

Inductive login_reply :=
| LoginError (code : Z) (msg : string)
| LoginOk (uid fullName email role userType : string).

Section Login.

(** [email_eq stored given]: the [WHERE email = ?] comparison under the
    column's collation. *)
Variable email_eq : string -> string -> bool.
(** [argon2.verify(hash, password)]: [None] when it throws. *)
Variable verify : string -> string -> option bool.

(** The route handler; [fault] is an error of the SELECT. *)
Definition login_handler (fault : bool) (users : list user) (b : body) : login_reply :=
  let email := body_get "email" b in
  let password := body_get "password" b in
  if negb (js_truthy email && js_truthy password)
  then LoginError 400 "Email and password are required"
  else match email, password with
  | JStr e, JStr p =>
      if fault then LoginError 500 "Server error"
      else match filter (fun u => email_eq (u_email u) e) users with
      | [] => LoginError 401 "Invalid login credentials"
      | u :: _ =>
          match verify (u_password u) p with
          | None => LoginError 500 "Server error during login"
          | Some false => LoginError 401 "Invalid login credentials"
          | Some true => LoginOk (u_id u) (u_full_name u) e (u_role u) (userType e)
          end
      end
  | _, _ => LoginError 400 "Invalid input format"
  end.

(** The request as served: middleware, then the handler. *)
Definition post_login (fault : bool) (users : list user) (b : body) : login_reply :=
  if body_present "POST" b then login_handler fault users b
  else LoginError 400 "Request body is required".

End Login.

(** *** Concrete stores *)

(** Day 100, room R1 created: four free slots for day 100 and day 101. *)
Definition db_room : db := snd (create_room "R1" 100 101 false [] empty_db).

Definition args_s1 : book_args := mkBookArgs "S1" "R1" "08:00-10:00" 100 "book_1".
Definition args_s2 : book_args := mkBookArgs "S2" "R1" "08:00-10:00" 100 "book_2".

(** S1 has booked 08:00-10:00 at 09:00. *)
Definition db_booked : db := snd (book (hours 9) args_s1 no_book_faults db_room).

(** Two parallel calls for the same free slot, by S1 and S2. *)
Definition race_calls : list call :=
  [(args_s1, no_book_faults, book_start (hours 9) args_s1);
   (args_s2, no_book_faults, book_start (hours 9) args_s2)].

(** Both calls pass their checks before either writes. *)
Definition race_schedule : list nat := [0; 0; 1; 1; 0; 0; 1; 1]%nat.

(** S1's booking approved, the slot write failing: the booking says
    Approved, the slot still says pending. *)
Definition db_approved_slot_stale : db :=
  snd (decide "book_1" "Approved" (Some "L1") 5 (mkDecideFaults false false true) db_booked).

(** Room R1 on day 100 with 08:00-10:00 disabled and the other slots free. *)
Definition db_one_disabled : db :=
  snd (disable_slot "R1" "08:00-10:00" 100 (mkSlotDisableFaults false false false false)
                    db_room).

Ltac split_ifs :=
  repeat match goal with
         | |- context [if ?c then _ else _] => destruct c eqn:?
         | |- context [match ?x with Some _ => _ | None => _ end] => destruct x eqn:?
         end.

(** * Theorems *)

(** ** Login: the user type *)

Lemma endsWith_get (s suf : string) (i : nat) :
  JS.endsWith s suf = true -> (i < String.length suf)%nat ->
  get (i + (String.length s - String.length suf)) s = get i suf.
Proof.
  unfold JS.endsWith. intros H Hi.
  apply andb_prop in H as [_ H]. apply String.eqb_eq in H.
  rewrite <- (substring_correct1 s _ _ _ Hi). now rewrite H.
Qed.

Lemma endsWith_length (s suf : string) :
  JS.endsWith s suf = true -> (String.length suf <= String.length s)%nat.
Proof.
  unfold JS.endsWith. intros H. apply andb_prop in H as [H _].
  now apply Nat.leb_le.
Qed.

Lemma lecturer_suffix_not_staff (email : string) :
  JS.endsWith email "@mfu.ac.th" = true -> JS.endsWith email "@mfu.th" = false.
Proof.
  intros Hl. destruct (JS.endsWith email "@mfu.th") eqn:Hs; [|reflexivity].
  exfalso.
  pose proof (endsWith_length _ _ Hl) as Len. simpl in Len.
  pose proof (endsWith_get _ _ 3 Hl ltac:(simpl; lia)) as G1.
  pose proof (endsWith_get _ _ 0 Hs ltac:(simpl; lia)) as G2.
  assert (E : (3 + (String.length email - String.length "@mfu.ac.th"))%nat =
               (0 + (String.length email - String.length "@mfu.th"))%nat) by (simpl; lia).
  rewrite E, G2 in G1. discriminate.
Qed.

(** C9: the user type is a function of the e-mail suffix alone: an
    address ending in [@mfu.th] is staff, one ending in [@mfu.ac.th] is a
    lecturer, any other is a student. *)
Theorem userType_by_domain_suffix (email : string) :
  (JS.endsWith email "@mfu.th" = true -> userType email = "staff") /\
  (JS.endsWith email "@mfu.ac.th" = true -> userType email = "lecturer") /\
  (JS.endsWith email "@mfu.th" = false -> JS.endsWith email "@mfu.ac.th" = false ->
   userType email = "student").
Proof.
  unfold userType. split; [|split].
  - intros H. now rewrite H.
  - intros H. now rewrite (lecturer_suffix_not_staff _ H), H.
  - intros H1 H2. now rewrite H1, H2.
Qed.

(** ** The daily reset *)

Lemma nth_error_map_some {A B} (g : A -> B) (l : list A) (i : nat) (x : A) :
  nth_error l i = Some x -> nth_error (map g l) i = Some (g x).
Proof. intros H. now rewrite nth_error_map, H. Qed.

Lemma reset_sql_idem (date : Z) (d : db) :
  reset_sql date (reset_sql date d) = reset_sql date d.
Proof.
  unfold reset_sql, set_avail. simpl. f_equal. rewrite map_map. apply map_ext.
  intros r.
  destruct ((ra_date r =? date)
            && (slot_status_eqb (ra_status r) Pending
                || slot_status_eqb (ra_status r) Reserved)) eqn:E; simpl.
  - now rewrite andb_false_r.
  - now rewrite E.
Qed.

(** C6: a reset run (its statement executed) frees exactly the pending or
    reserved slots dated the day after the run's local date, clearing the
    bound student (and the booking link); every other slot row, in
    particular every row dated the run's own day, is left as it was; the
    other tables are untouched; running it again for the same date
    changes nothing. *)
Theorem reset_frees_tomorrow_only (localToday : Z) (d : db) :
  let d' := resetRoomStatuses localToday false d in
  rooms d' = rooms d /\ bookings d' = bookings d /\
  length (room_availability d') = length (room_availability d) /\
  (forall i r, nth_error (room_availability d) i = Some r ->
     (ra_date r = localToday + 1 -> occupied r ->
        nth_error (room_availability d') i =
          Some (mkAvail (ra_time_slot r) Free (ra_room_id r) (ra_date r) None None)) /\
     (ra_date r <> localToday + 1 -> nth_error (room_availability d') i = Some r) /\
     (ra_status r = Free \/ ra_status r = Disabled ->
        nth_error (room_availability d') i = Some r)) /\
  resetRoomStatuses localToday false d' = d'.
Proof.
  cbv zeta. unfold resetRoomStatuses, reset_sql. simpl.
  split; [reflexivity|]. split; [reflexivity|].
  split; [apply length_map|]. split.
  - intros i r Hr. repeat split.
    + intros Hd [Hs|Hs]; erewrite nth_error_map_some by exact Hr;
        rewrite Hd, Z.eqb_refl, Hs; reflexivity.
    + intros Hd. erewrite nth_error_map_some by exact Hr.
      apply Z.eqb_neq in Hd. now rewrite Hd.
    + intros [Hs|Hs]; erewrite nth_error_map_some by exact Hr; rewrite Hs;
        now rewrite andb_false_r.
  - apply reset_sql_idem.
Qed.

(** ** One booking call *)
Lemma book_run_done n a f r d :
  book_run n a f (mkThread BkDone r) d = (mkThread BkDone r, d).
Proof. induction n; simpl; auto. Qed.

Lemma filter_fresh_id (bid : string) (bs : list booking) (nb : booking) :
  existsb (fun b => String.eqb (bk_id b) bid) bs = false -> bk_id nb = bid ->
  filter (fun b => negb (String.eqb (bk_id b) bid)) (bs ++ [nb]) = bs.
Proof.
  intros H Hnb. rewrite filter_app. simpl. rewrite Hnb, String.eqb_refl. simpl.
  rewrite app_nil_r. induction bs as [|b bs IH]; simpl in *; [reflexivity|].
  apply orb_false_iff in H as [H1 H2]. rewrite H1. simpl. now rewrite IH.
Qed.

Lemma book_outcome now a f d :
  let key := slot_key (ba_roomId a) (ba_today a) (ba_timeSlot a) in
  (snd (book now a f d) = d /\ forall id, fst (book now a f d) <> RBooked id) \/
  (book_start now a = goto BkCheck /\ f_check f = false /\
   existsb (fun b => String.eqb (bk_student_id b) (ba_studentId a)
                     && (bk_date b =? ba_today a)) (bookings d) = false /\
   f_slot_check f = false /\
   existsb (fun r => key r && slot_status_eqb (ra_status r) Free && unbound r)
           (room_availability d) = true /\
   f_insert f = false /\
   existsb (fun b => String.eqb (bk_id b) (ba_bookingId a)) (bookings d) = false /\
   ((f_update f = false /\
     book now a f d = (RBooked (ba_bookingId a),
                       mkDb (rooms d) (mark_pending a (room_availability d))
                            (bookings d ++ [new_booking a]))) \/
    (f_update f = true /\
     book now a f d = (RError 500 "Booking update failed",
                       if f_rollback f then set_bookings d (bookings d ++ [new_booking a])
                       else d)))).
Proof.
  cbv zeta. unfold book, book_start.
  destruct (negb _) eqn:E1.
  { left. simpl. split; [reflexivity|]. intros id; discriminate. }
  destruct (negb (isTimeSlotValid now (ba_timeSlot a))) eqn:E2.
  { left. simpl. split; [reflexivity|]. intros id; discriminate. }
  simpl book_run. unfold book_step.
  repeat (cbv beta iota zeta delta [goto finish bk_pc bk_reply fst snd]; split_ifs);
  try (left; split; [reflexivity| intros ?; discriminate]).
  all: right; match goal with H : _ || _ = false |- _ =>
               apply orb_false_iff in H as [Hi Hx] end;
       repeat split; try assumption.
  all: first
    [ left; split; reflexivity
    | right; split; [reflexivity|];
      first [ reflexivity
            | unfold set_bookings; simpl;
              rewrite filter_fresh_id by (assumption || reflexivity);
              now destruct d ] ].
Qed.

Lemma mark_pending_key (a : book_args) (rs : list availability_row) (r : availability_row) :
  In r (mark_pending a rs) ->
  slot_key (ba_roomId a) (ba_today a) (ba_timeSlot a) r = true -> ra_status r = Pending.
Proof.
  unfold mark_pending. intros Hin Hk. apply in_map_iff in Hin as [x [Hx _]].
  destruct (slot_key (ba_roomId a) (ba_today a) (ba_timeSlot a) x) eqn:K.
  - now subst.
  - subst. congruence.
Qed.

(** C1 (as the code has it): exclusion holds between calls that do not
    interleave.  (1) A book call never succeeds on a store in which no
    row of its room, date and time slot is free and unbound; (2) a
    successful book call leaves every row of its room, date and time slot
    pending and bound to its student; (3) hence a book call for the same
    room, date and time slot, by anyone, run on the store so left, does
    not succeed. *)
Theorem booked_slot_excludes_later_calls :
  (forall (now : Z) (a : book_args) (f : book_faults) (d : db),
     (forall r, In r (room_availability d) ->
        slot_key (ba_roomId a) (ba_today a) (ba_timeSlot a) r = true ->
        slot_status_eqb (ra_status r) Free && unbound r = false) ->
     forall id, fst (book now a f d) <> RBooked id) /\
  (forall (now : Z) (a : book_args) (f : book_faults) (d : db),
     fst (book now a f d) = RBooked (ba_bookingId a) ->
     forall r, In r (room_availability (snd (book now a f d))) ->
       slot_key (ba_roomId a) (ba_today a) (ba_timeSlot a) r = true ->
       ra_status r = Pending /\ ra_student_id r = Some (ba_studentId a)) /\
  (forall (now now' : Z) (a a' : book_args) (f f' : book_faults) (d : db),
     fst (book now a f d) = RBooked (ba_bookingId a) ->
     ba_roomId a' = ba_roomId a -> ba_today a' = ba_today a ->
     ba_timeSlot a' = ba_timeSlot a ->
     forall id, fst (book now' a' f' (snd (book now a f d))) <> RBooked id).
Proof.
  assert (Taken : forall (now : Z) (a : book_args) (f : book_faults) (d : db),
     (forall r, In r (room_availability d) ->
        slot_key (ba_roomId a) (ba_today a) (ba_timeSlot a) r = true ->
        slot_status_eqb (ra_status r) Free && unbound r = false) ->
     forall id, fst (book now a f d) <> RBooked id).
  { intros now a f d Hall id.
    destruct (book_outcome now a f d) as [[_ H]|(_ & _ & _ & _ & Hfree & _)].
    - apply H.
    - exfalso. apply existsb_exists in Hfree as [r [Hin Hr]].
      apply andb_prop in Hr as [Hr Hu]. apply andb_prop in Hr as [Hk Hfr].
      specialize (Hall r Hin Hk). rewrite Hfr, Hu in Hall. discriminate. }
  assert (Marked : forall (now : Z) (a : book_args) (f : book_faults) (d : db),
     fst (book now a f d) = RBooked (ba_bookingId a) ->
     forall r, In r (room_availability (snd (book now a f d))) ->
       slot_key (ba_roomId a) (ba_today a) (ba_timeSlot a) r = true ->
       ra_status r = Pending /\ ra_student_id r = Some (ba_studentId a)).
  { intros now a f d Hok r Hin Hk.
    destruct (book_outcome now a f d)
      as [[_ H]|(_ & _ & _ & _ & _ & _ & _ & [[_ Hb]|[_ Hb]])].
    - exfalso. exact (H _ Hok).
    - rewrite Hb in Hin. simpl in Hin. unfold mark_pending in Hin.
      apply in_map_iff in Hin as [x [Hx _]].
      destruct (slot_key (ba_roomId a) (ba_today a) (ba_timeSlot a) x) eqn:K.
      + subst. split; reflexivity.
      + subst. congruence.
    - rewrite Hb in Hok. discriminate. }
  split; [exact Taken|]. split; [exact Marked|].
  intros now now' a a' f f' d Hok Hr Hd Hs.
  apply Taken. intros r Hin Hk. rewrite Hr, Hd, Hs in Hk.
  destruct (Marked now a f d Hok r Hin Hk) as [Hp _]. rewrite Hp. reflexivity.
Qed.

Lemma booked_slot_excludes_later_calls_witness :
  (forall id, fst (book (hours 9) args_s2 no_book_faults db_booked) <> RBooked id) /\
  fst (book (hours 9) args_s1 no_book_faults db_room) = RBooked "book_1" /\
  (forall r, In r (room_availability db_booked) ->
     slot_key "R1" 100 "08:00-10:00" r = true ->
     ra_status r = Pending /\ ra_student_id r = Some "S1") /\
  (forall id, fst (book (hours 9 + 1800000) args_s2 no_book_faults db_booked) <> RBooked id).
Proof.
  destruct booked_slot_excludes_later_calls as [T [M L]].
  split; [|split; [reflexivity|split]].
  - apply (T (hours 9) args_s2 no_book_faults db_booked).
    intros r Hin Hk. vm_compute in Hin.
    repeat (destruct Hin as [Hin|Hin]; [subst r; vm_compute in Hk |- *;
                                        first [reflexivity | discriminate] |]).
    destruct Hin.
  - apply (M (hours 9) args_s1 no_book_faults db_room). reflexivity.
  - apply (L (hours 9) (hours 9 + 1800000) args_s1 args_s2 no_book_faults no_book_faults db_room);
      reflexivity.
Defined.

(** C1 fails under concurrency: two parallel calls for the same free slot,
    scheduled so that both pass the availability check before either
    writes, both succeed; both Pending bookings stay, and the slot ends
    bound to the later writer. *)
Lemma parallel_bookings_both_succeed :
  find (slot_key "R1" 100 "08:00-10:00") (room_availability db_room) =
    Some (mkAvail "08:00-10:00" Free "R1" 100 None None) /\
  let '(cs, d') := run_schedule race_schedule race_calls db_room in
  map call_reply cs = [Some (RBooked "book_1"); Some (RBooked "book_2")] /\
  map bk_student_id (filter (fun b => String.eqb (bk_time_slot b) "08:00-10:00")
                            (bookings d')) = ["S1"; "S2"] /\
  find (slot_key "R1" 100 "08:00-10:00") (room_availability d') =
    Some (mkAvail "08:00-10:00" Pending "R1" 100 (Some "S2") None).
Proof. vm_compute. repeat split. Qed.

(** ** Compensation in the booking call *)

(** C3 (as the code has it): when the booking row is inserted and the slot
    update fails, the caller gets the update's error at once; the slot rows
    are unchanged; the DELETE of the new row is issued without waiting for
    it: when it succeeds no booking row of the attempt remains and the
    store is back to where it was, when it fails the new row stays. *)
Theorem failed_slot_update_compensates (now : Z) (a : book_args) (f : book_faults) (d : db) :
  book_start now a = goto BkCheck -> f_check f = false ->
  existsb (fun b => String.eqb (bk_student_id b) (ba_studentId a)
                    && (bk_date b =? ba_today a)) (bookings d) = false ->
  f_slot_check f = false ->
  existsb (fun r => slot_key (ba_roomId a) (ba_today a) (ba_timeSlot a) r
                    && slot_status_eqb (ra_status r) Free && unbound r)
          (room_availability d) = true ->
  f_insert f = false ->
  existsb (fun b => String.eqb (bk_id b) (ba_bookingId a)) (bookings d) = false ->
  f_update f = true ->
  fst (book now a f d) = RError 500 "Booking update failed" /\
  room_availability (snd (book now a f d)) = room_availability d /\
  (f_rollback f = false ->
     snd (book now a f d) = d /\
     ~ exists b, In b (bookings (snd (book now a f d))) /\ bk_id b = ba_bookingId a) /\
  (f_rollback f = true ->
     bookings (snd (book now a f d)) = (bookings d ++ [new_booking a])%list).
Proof.
  intros Hst Hc Hday Hsc Hfree Hi Hid Hu.
  unfold book. rewrite Hst. simpl book_run. unfold book_step.
  rewrite Hc, Hsc, Hi, Hu. cbv beta iota zeta delta [goto finish bk_pc bk_reply fst snd].
  rewrite Hday, Hfree. simpl orb. rewrite Hid.
  cbv beta iota zeta delta [goto finish bk_pc bk_reply fst snd].
  destruct (f_rollback f) eqn:Hr; simpl.
  - repeat split; intros; discriminate.
  - rewrite filter_fresh_id by (assumption || reflexivity).
    repeat split; try discriminate.
    + now destruct d.
    + intros [b [Hb Hbid]]. apply Bool.not_true_iff_false in Hid. apply Hid.
      apply existsb_exists. exists b. split; [assumption|]. now apply String.eqb_eq.
Qed.

Lemma failed_slot_update_compensates_witness :
  let f := mkBookFaults false false false false true false in
  book_start (hours 9) args_s1 = goto BkCheck /\
  fst (book (hours 9) args_s1 f db_room) = RError 500 "Booking update failed" /\
  snd (book (hours 9) args_s1 f db_room) = db_room.
Proof.
  cbv zeta. split; [reflexivity|].
  destruct (failed_slot_update_compensates (hours 9) args_s1
              (mkBookFaults false false false false true false) db_room)
    as (H1 & _ & H3 & _); try reflexivity.
  split; [exact H1|]. exact (proj1 (H3 eq_refl)).
Defined.

(** C3 fails when the compensating DELETE fails: the caller gets the
    update's error, and the booking row of the attempt stays. *)
Lemma failed_compensation_leaves_booking :
  let f := mkBookFaults false false false false true true in
  fst (book (hours 9) args_s1 f db_room) = RError 500 "Booking update failed" /\
  map bk_id (bookings (snd (book (hours 9) args_s1 f db_room))) = ["book_1"].
Proof. vm_compute. split; reflexivity. Qed.

(** ** Rejection reasons of the booking call *)

(** C8: a call that passes the time and daily-limit checks and finds no
    free, unbound row for its slot is rejected with the reason read from
    the slot row: pending, reserved, or bound to a student. *)
Theorem rejection_reason_refined (now : Z) (a : book_args) (f : book_faults) (d : db)
    (r : availability_row) :
  book_start now a = goto BkCheck -> f_check f = false ->
  existsb (fun b => String.eqb (bk_student_id b) (ba_studentId a)
                    && (bk_date b =? ba_today a)) (bookings d) = false ->
  f_slot_check f = false ->
  existsb (fun r => slot_key (ba_roomId a) (ba_today a) (ba_timeSlot a) r
                    && slot_status_eqb (ra_status r) Free && unbound r)
          (room_availability d) = false ->
  f_status_check f = false ->
  find (slot_key (ba_roomId a) (ba_today a) (ba_timeSlot a)) (room_availability d) = Some r ->
  book now a f d = (RError 400 (status_message r), d) /\
  (ra_status r = Pending ->
     fst (book now a f d) = RError 400 "Time slot is already pending approval") /\
  (ra_status r = Reserved ->
     fst (book now a f d) = RError 400 "Time slot is already reserved") /\
  (forall s, ra_status r <> Pending -> ra_status r <> Reserved ->
     ra_student_id r = Some s -> s <> "" ->
     fst (book now a f d) = RError 400 "Time slot is already booked by another student").
Proof.
  intros Hst Hc Hday Hsc Hnofree Hstc Hfind.
  assert (E : book now a f d = (RError 400 (status_message r), d)).
  { unfold book. rewrite Hst. simpl book_run. unfold book_step.
    rewrite Hc, Hsc, Hstc. cbv beta iota zeta delta [goto finish bk_pc bk_reply fst snd].
    rewrite Hday, Hnofree. cbv beta iota zeta delta [goto finish bk_pc bk_reply fst snd].
    rewrite Hfind. reflexivity. }
  rewrite E. simpl. unfold status_message, student_truthy, JS.truthy.
  split; [reflexivity|]. split; [intros ->; reflexivity|].
  split; [intros ->; reflexivity|].
  intros s Hp Hr Hs Hne. rewrite Hs.
  destruct (ra_status r); try congruence.
  - apply String.eqb_neq in Hne. now rewrite Hne.
  - apply String.eqb_neq in Hne. now rewrite Hne.
Qed.

Lemma rejection_reason_refined_witness :
  fst (book (hours 9) args_s2 no_book_faults db_booked) =
    RError 400 "Time slot is already pending approval".
Proof.
  apply (rejection_reason_refined (hours 9) args_s2 no_book_faults db_booked
           (mkAvail "08:00-10:00" Pending "R1" 100 (Some "S1") None));
    reflexivity.
Defined.

(** ** Per-slot enable *)

(** C10: whenever the slot statement and the room statement run, the
    call replies success and the room's [is_disabled] is 0, also when the
    named slot was not disabled and no slot row changed. *)
Theorem enable_slot_reenables_room (roomId timeSlot : string) (today : Z)
    (f : slot_enable_faults) (d : db) :
  f_se_slot f = false -> f_se_room f = false ->
  fst (enable_slot roomId timeSlot today f d) = RSuccess "" /\
  (forall rm, In rm (rooms (snd (enable_slot roomId timeSlot today f d))) ->
     rm_id rm = roomId -> rm_is_disabled rm = 0) /\
  map rm_id (rooms (snd (enable_slot roomId timeSlot today f d))) = map rm_id (rooms d) /\
  (existsb (fun r => slot_key roomId today timeSlot r && slot_status_eqb (ra_status r) Disabled)
           (room_availability d) = false ->
   room_availability (snd (enable_slot roomId timeSlot today f d)) = room_availability d).
Proof.
  intros H1 H2. unfold enable_slot. rewrite H1, H2. simpl.
  split; [reflexivity|]. split; [|split].
  - intros rm Hin Hid. apply in_map_iff in Hin as [x [Hx _]].
    destruct (String.eqb (rm_id x) roomId) eqn:E.
    + now subst.
    + subst. apply String.eqb_neq in E. contradiction.
  - rewrite map_map. apply map_ext. intros x.
    now destruct (String.eqb (rm_id x) roomId).
  - intros Hno. rewrite <- (map_id (room_availability d)) at 2.
    apply map_ext_in. intros r Hin.
    destruct (slot_key roomId today timeSlot r && slot_status_eqb (ra_status r) Disabled)
      eqn:E; [|reflexivity].
    exfalso. apply Bool.not_true_iff_false in Hno. apply Hno.
    apply existsb_exists. now exists r.
Qed.

Lemma enable_slot_reenables_room_witness :
  existsb (fun r => slot_key "R1" 100 "08:00-10:00" r && slot_status_eqb (ra_status r) Disabled)
          (room_availability (update_room_disabled "R1" 1 db_room)) = false /\
  fst (enable_slot "R1" "08:00-10:00" 100 (mkSlotEnableFaults false false)
                   (update_room_disabled "R1" 1 db_room)) = RSuccess "".
Proof.
  split; [reflexivity|].
  apply (enable_slot_reenables_room "R1" "08:00-10:00" 100 (mkSlotEnableFaults false false)
           (update_room_disabled "R1" 1 db_room)); reflexivity.
Defined.

(** ** Deciding a booking *)

Lemma availability_status_reserved (status : string) :
  availability_status status = Reserved <-> JS.toLowerCase status = "approved".
Proof.
  unfold availability_status.
  destruct (String.eqb (JS.toLowerCase status) "approved") eqn:E.
  - apply String.eqb_eq in E. now split.
  - apply String.eqb_neq in E. split; [discriminate|contradiction].
Qed.

Lemma update_booking_hit bid status approvedBy ts bs b' :
  In b' (update_booking bid status approvedBy ts bs) -> bk_id b' = bid ->
  bk_status b' = status /\ bk_approved_by b' = approvedBy /\ bk_approved_at b' = Some ts.
Proof.
  intros Hin Hid. unfold update_booking in Hin. apply in_map_iff in Hin as [x [Hx _]].
  destruct (String.eqb (bk_id x) bid) eqn:E; subst; simpl; [now repeat split|].
  apply String.eqb_neq in E. contradiction.
Qed.

Lemma update_booking_miss bid status approvedBy ts bs b' :
  In b' (update_booking bid status approvedBy ts bs) -> bk_id b' <> bid -> In b' bs.
Proof.
  intros Hin Hid. unfold update_booking in Hin. apply in_map_iff in Hin as [x [Hx Hx']].
  destruct (String.eqb (bk_id x) bid) eqn:E; subst; simpl in *; [apply String.eqb_eq in E; contradiction|assumption].
Qed.

(** C4 (as the code has it): when the booking lookup runs, the call is
    rejected with 404 exactly when no booking has the id; when in addition
    the booking update runs, the call replies success, every row with the
    id carries the new status, approver and time, the others are kept, and
    the slot rows bound to the booking's student under its room, date and
    time slot get [reserved] when the status is [approved] in any letter
    case, [free] otherwise; if the slot write fails, the booking update
    stays and the slot rows are as they were. *)
Theorem decide_sets_booking_and_slot (bid status : string) (approvedBy : option string)
    (ts : Z) (f : decide_faults) (d : db) :
  f_get f = false ->
  (fst (decide bid status approvedBy ts f d) = RError 404 "Booking not found" <->
   ~ exists b, In b (bookings d) /\ bk_id b = bid) /\
  (forall b, find (fun b => String.eqb (bk_id b) bid) (bookings d) = Some b ->
   f_upd_booking f = false ->
   let d' := snd (decide bid status approvedBy ts f d) in
   fst (decide bid status approvedBy ts f d) = RSuccess "Booking status updated" /\
   rooms d' = rooms d /\
   (forall b', In b' (bookings d') -> bk_id b' = bid ->
      bk_status b' = status /\ bk_approved_by b' = approvedBy /\ bk_approved_at b' = Some ts) /\
   (forall b', In b' (bookings d') -> bk_id b' <> bid -> In b' (bookings d)) /\
   (f_upd_slot f = false ->
      forall r, In r (room_availability d') ->
      slot_key (bk_room_id b) (bk_date b) (bk_time_slot b) r = true ->
      ra_student_id r = Some (bk_student_id b) ->
      ra_status r = availability_status status) /\
   (f_upd_slot f = true -> room_availability d' = room_availability d)) /\
  (availability_status status = Reserved <-> JS.toLowerCase status = "approved").
Proof.
  intros Hg. split; [|split; [|apply availability_status_reserved]].
  - unfold decide. rewrite Hg.
    destruct (find (fun b => String.eqb (bk_id b) bid) (bookings d)) as [b|] eqn:F.
    + apply find_some in F as [Hin Hid]. apply String.eqb_eq in Hid.
      split.
      * destruct (f_upd_booking f); simpl; discriminate.
      * intros Hn. exfalso. apply Hn. now exists b.
    + split; [|reflexivity]. intros _ [b [Hin Hid]].
      pose proof (find_none _ _ F b Hin) as Hf. simpl in Hf.
      rewrite Hid, String.eqb_refl in Hf. discriminate.
  - intros b F Hu. cbv zeta. unfold decide. rewrite Hg, F, Hu.
    destruct (f_upd_slot f) eqn:Hs; simpl;
      (split; [reflexivity|]); (split; [reflexivity|]);
      (split; [apply update_booking_hit|]); (split; [apply update_booking_miss|]);
      (split; [|intros; first [reflexivity|discriminate]]); intros H; try discriminate.
    intros r Hin Hk Hstu.
    unfold update_bound_slot in Hin. apply in_map_iff in Hin as [x [Hx _]].
    destruct (slot_key (bk_room_id b) (bk_date b) (bk_time_slot b) x
              && match ra_student_id x with
                 | Some s => String.eqb s (bk_student_id b)
                 | None => false
                 end) eqn:E.
    + subst. reflexivity.
    + subst. rewrite Hk, Hstu, String.eqb_refl in E. discriminate.
Qed.

Lemma decide_sets_booking_and_slot_witness :
  fst (decide "book_1" "Approved" (Some "L1") 5 no_decide_faults db_booked) =
    RSuccess "Booking status updated".
Proof.
  destruct (decide_sets_booking_and_slot "book_1" "Approved" (Some "L1") 5
              no_decide_faults db_booked eq_refl) as [_ [H _]].
  exact (proj1 (H (new_booking args_s1) eq_refl eq_refl)).
Defined.

(** C4 fails on the letter case of the status: a decision ["approved"]
    reserves the slot, where the claim's rule (anything but [Approved]
    frees it) gives [free]. *)
Lemma lowercase_approved_reserves_slot :
  spec_decision_status "approved" = Free /\
  find (slot_key "R1" 100 "08:00-10:00")
       (room_availability (snd (decide "book_1" "approved" (Some "L1") 5
                                       no_decide_faults db_booked))) =
    Some (mkAvail "08:00-10:00" Reserved "R1" 100 (Some "S1") None).
Proof. vm_compute. split; reflexivity. Qed.

(** ** Room-level disable *)

(** C5: a room whose slots for the day are all free or already disabled
    (here one disabled, three free) is refused by the room-level disable,
    with the message for booked or pending slots, and nothing changes. *)
Theorem disable_room_refuses_disabled_slot :
  forallb (fun r => negb (String.eqb (ra_room_id r) "R1" && (ra_date r =? 100))
                    || slot_status_eqb (ra_status r) Free
                    || slot_status_eqb (ra_status r) Disabled)
          (room_availability db_one_disabled) = true /\
  existsb (fun r => String.eqb (ra_room_id r) "R1" && (ra_date r =? 100)
                    && slot_status_eqb (ra_status r) Disabled)
          (room_availability db_one_disabled) = true /\
  disable_room "R1" 100 no_room_faults db_one_disabled =
    (RError 400 "Cannot disable room with booked or pending slots", db_one_disabled).
Proof. vm_compute. repeat split. Qed.

(** ** Slot materialization *)

Lemma no_fault_hd_tl (fs : list bool) :
  forallb negb fs = true -> hd false fs = false /\ forallb negb (tl fs) = true.
Proof.
  destruct fs as [|b fs]; simpl; [auto|]. intros H.
  apply andb_prop in H as [H1 H2]. destruct b; [discriminate|auto].
Qed.

Lemma slot_key_refl (roomId : string) (today : Z) (l : string) :
  slot_key roomId today l (mkAvail l Free roomId today None None) = true.
Proof. unfold slot_key. simpl. now rewrite !String.eqb_refl, Z.eqb_refl. Qed.

Lemma insert_ignore_slot_props (roomId : string) (today : Z) (l : string) (d : db) :
  let d' := insert_ignore_slot roomId today l d in
  rooms d' = rooms d /\ bookings d' = bookings d /\
  (forall r, In r (room_availability d) -> In r (room_availability d')) /\
  (exists r, In r (room_availability d') /\ slot_key roomId today l r = true) /\
  (forall r, In r (room_availability d') ->
     In r (room_availability d) \/ r = mkAvail l Free roomId today None None).
Proof.
  cbv zeta. unfold insert_ignore_slot.
  destruct (existsb (slot_key roomId today l) (room_availability d)) eqn:E; simpl.
  - apply existsb_exists in E. repeat split; auto.
  - repeat split; auto.
    + intros r Hin. apply in_or_app. now left.
    + exists (mkAvail l Free roomId today None None). split; [|apply slot_key_refl].
      apply in_or_app. right. now left.
    + intros r Hin. apply in_app_or in Hin as [Hin|[<-|[]]]; auto.
Qed.

Lemma run_inserts_no_faults (roomId : string) (today : Z) (labels : list string) :
  forall (fs : list bool) (d : db), forallb negb fs = true ->
  let p := run_inserts roomId today labels fs d in
  snd p = false /\ rooms (fst p) = rooms d /\ bookings (fst p) = bookings d /\
  (forall r, In r (room_availability d) -> In r (room_availability (fst p))) /\
  (forall l, In l labels ->
     exists r, In r (room_availability (fst p)) /\ slot_key roomId today l r = true) /\
  (forall r, In r (room_availability (fst p)) ->
     In r (room_availability d) \/
     (r = mkAvail (ra_time_slot r) Free roomId today None None /\ In (ra_time_slot r) labels)).
Proof.
  induction labels as [|l rest IH]; intros fs d Hfs; cbv zeta.
  - simpl. repeat split; auto. intros l [].
  - destruct (no_fault_hd_tl fs Hfs) as [Hhd Htl]. simpl run_inserts. rewrite Hhd.
    destruct (insert_ignore_slot_props roomId today l d) as (Ir & Ib & Isub & Inew & Iold).
    specialize (IH (tl fs) (insert_ignore_slot roomId today l d) Htl). cbv zeta in IH.
    destruct (run_inserts roomId today rest (tl fs) (insert_ignore_slot roomId today l d))
      as [d2 e] eqn:R.
    simpl in IH |- *. destruct IH as (He & Hr & Hb & Hsub & Hlab & Hold).
    repeat split.
    + exact He.
    + congruence.
    + congruence.
    + auto.
    + intros l' [<-|Hl'].
      * destruct Inew as [r [Hin Hk]]. exists r. split; auto.
      * auto.
    + intros r Hin. destruct (Hold r Hin) as [H|[Hr' Hl]].
      * destruct (Iold r H) as [H'|H']; [now left|right].
        subst r. simpl. split; [reflexivity|now left].
      * right. split; [assumption|now right].
Qed.

(** C7 (as the code has it): the call returns today's slots of the room
    whose end time has not passed, when there are any; otherwise, when the
    inserts and the final read run, every configured label whose end time
    has not passed has a row for the room and today, the rows added are
    free, unbound rows for such labels, no row is removed, and the call
    returns today's not-yet-ended slots. *)
Theorem get_time_slots_materializes (now : Z) (roomId : string) (today : Z)
    (f : slots_faults) (d : db) :
  f_select f = false ->
  let existing := filter (fun r => isTimeSlotValid now (ra_time_slot r))
                         (select_slots roomId today d) in
  (existing <> [] -> get_time_slots now roomId today f d = (RSlots existing, d)) /\
  (existing = [] -> forallb negb (f_inserts f) = true -> f_fetch f = false ->
   let d' := snd (get_time_slots now roomId today f d) in
   fst (get_time_slots now roomId today f d) =
     RSlots (filter (fun r => isTimeSlotValid now (ra_time_slot r))
                    (select_slots roomId today d')) /\
   rooms d' = rooms d /\ bookings d' = bookings d /\
   (forall r, In r (room_availability d) -> In r (room_availability d')) /\
   (forall l, In l timeSlots -> isTimeSlotValid now l = true ->
      exists r, In r (room_availability d') /\ slot_key roomId today l r = true) /\
   (forall r, In r (room_availability d') ->
      In r (room_availability d) \/
      (r = mkAvail (ra_time_slot r) Free roomId today None None /\
       In (ra_time_slot r) timeSlots /\ isTimeSlotValid now (ra_time_slot r) = true))).
Proof.
  intros Hsel. cbv zeta. unfold get_time_slots. rewrite Hsel. split.
  - intros Hne. destruct (filter _ (select_slots roomId today d)) as [|x xs]; [contradiction|].
    reflexivity.
  - intros Hemp Hins Hf. rewrite Hemp. cbn [length Nat.eqb negb].
    destruct (filter (isTimeSlotValid now) timeSlots) as [|l0 ls] eqn:FT.
    + cbn [length Nat.eqb fst snd]. rewrite Hemp. repeat split; auto.
      * intros l Hl Hv. assert (In l (filter (isTimeSlotValid now) timeSlots))
          by (apply filter_In; auto). rewrite FT in H. destruct H.
    + cbn [length Nat.eqb].
      pose proof (run_inserts_no_faults roomId today (l0 :: ls) (f_inserts f) d Hins) as P.
      cbv zeta in P.
      destruct (run_inserts roomId today (l0 :: ls) (f_inserts f) d) as [d1 e] eqn:R.
      simpl in P. destruct P as (He & Hr & Hb & Hsub & Hlab & Hold). subst e.
      rewrite Hf. simpl. repeat split; auto.
      * intros l Hl Hv. apply Hlab.
        assert (H : In l (filter (isTimeSlotValid now) timeSlots)) by (apply filter_In; auto).
        rewrite FT in H. exact H.
      * intros r Hin. destruct (Hold r Hin) as [H|[Hr' Hl]]; [now left|right].
        assert (H : In (ra_time_slot r) (filter (isTimeSlotValid now) timeSlots))
          by (rewrite FT; exact Hl).
        apply filter_In in H as [H1 H2]. auto.
Qed.

Lemma get_time_slots_materializes_witness :
  fst (get_time_slots (hours 11) "R2" 100 no_slots_faults empty_db) =
    RSlots (filter (fun r => isTimeSlotValid (hours 11) (ra_time_slot r))
              (select_slots "R2" 100
                 (snd (get_time_slots (hours 11) "R2" 100 no_slots_faults empty_db)))).
Proof.
  destruct (get_time_slots_materializes (hours 11) "R2" 100 no_slots_faults empty_db eq_refl)
    as [_ H].
  exact (proj1 (H eq_refl eq_refl eq_refl)).
Defined.

(** C7 fails: at 11:00, for a room without slots today, the call adds the
    three labels not yet ended and none for 08:00-10:00, and replies
    with the slots, not an error. *)
Lemma time_slots_not_all_labels :
  (exists rows, fst (get_time_slots (hours 11) "R2" 100 no_slots_faults empty_db) = RSlots rows) /\
  map ra_time_slot
      (room_availability (snd (get_time_slots (hours 11) "R2" 100 no_slots_faults empty_db))) =
    ["10:00-12:00"; "13:00-15:00"; "15:00-17:00"].
Proof. vm_compute. split; [eexists; reflexivity|reflexivity]. Qed.

(** ** The slot/booking invariant over reachable stores *)

Lemma slot_key_true (rid : string) (dt : Z) (ts : string) (r : availability_row) :
  slot_key rid dt ts r = true ->
  ra_room_id r = rid /\ ra_date r = dt /\ ra_time_slot r = ts.
Proof.
  unfold slot_key. intros H.
  apply andb_prop in H as [H H3]. apply andb_prop in H as [H1 H2].
  apply String.eqb_eq in H1, H3. apply Z.eqb_eq in H2. auto.
Qed.

Lemma bb_step (d d' : db) :
  bound_and_booked d -> bookings_keys_kept d d' ->
  (forall r', In r' (room_availability d') -> occupied r' ->
     In r' (room_availability d) \/
     exists s, ra_student_id r' = Some s /\
               exists b, In b (bookings d') /\ booking_matches b r' s) ->
  bound_and_booked d'.
Proof.
  intros Hd Hk Hr r' Hin Hocc.
  destruct (Hr r' Hin Hocc) as [Hold|Hnew]; [|exact Hnew].
  destruct (Hd r' Hold Hocc) as [s [Hs [b [Hb Hm]]]].
  exists s. split; [exact Hs|].
  destruct (Hk b Hb) as [b' (Hb' & E1 & E2 & E3 & E4)].
  exists b'. split; [exact Hb'|]. unfold booking_matches in *. intuition congruence.
Qed.

Lemma keys_kept_incl (d d' : db) :
  incl (bookings d) (bookings d') -> bookings_keys_kept d d'.
Proof. intros H b Hb. exists b. auto. Qed.

Lemma bb_frame (d d' : db) :
  bound_and_booked d -> bookings d' = bookings d ->
  (forall r', In r' (room_availability d') -> occupied r' -> In r' (room_availability d)) ->
  bound_and_booked d'.
Proof.
  intros Hd Hb Hr. apply (bb_step d); auto.
  apply keys_kept_incl. rewrite Hb. apply incl_refl.
Qed.

Lemma map_status_rows (c : availability_row -> bool) (st : slot_status)
    (rs : list availability_row) (r' : availability_row) :
  st = Free \/ st = Disabled ->
  In r' (map (fun r => if c r then with_status st r else r) rs) -> occupied r' -> In r' rs.
Proof.
  intros Hst Hin Hocc. apply in_map_iff in Hin as [x [Hx Hx']].
  destruct (c x); subst; auto. exfalso.
  unfold occupied in Hocc. simpl in Hocc. destruct Hst; subst; destruct Hocc; discriminate.
Qed.

Lemma insert_ignore_frame (roomId : string) (today : Z) (l : string) (d : db) :
  bookings (insert_ignore_slot roomId today l d) = bookings d /\
  forall r, In r (room_availability (insert_ignore_slot roomId today l d)) -> occupied r ->
            In r (room_availability d).
Proof.
  destruct (insert_ignore_slot_props roomId today l d) as (_ & Hb & _ & _ & Hold).
  split; [exact Hb|]. intros r Hin Hocc. destruct (Hold r Hin) as [H|H]; [exact H|].
  subst r. destruct Hocc; discriminate.
Qed.

Lemma run_inserts_frame (roomId : string) (today : Z) (labels : list string) :
  forall (fs : list bool) (d : db),
  bookings (fst (run_inserts roomId today labels fs d)) = bookings d /\
  forall r, In r (room_availability (fst (run_inserts roomId today labels fs d))) ->
            occupied r -> In r (room_availability d).
Proof.
  induction labels as [|l rest IH]; intros fs d; simpl; [auto|].
  set (d1 := if hd false fs then d else insert_ignore_slot roomId today l d).
  assert (H1 : bookings d1 = bookings d /\
               forall r, In r (room_availability d1) -> occupied r ->
                         In r (room_availability d)).
  { unfold d1. destruct (hd false fs); [auto|apply insert_ignore_frame]. }
  destruct (IH (tl fs) d1) as [Hb Hr].
  destruct (run_inserts roomId today rest (tl fs) d1) as [d2 e]. simpl in *.
  destruct H1 as [Hb1 Hr1]. split; [congruence|auto].
Qed.

Lemma insert_slots_frame (roomId : string) (ts : list (Z * string)) :
  forall (fs : list bool) (d : db),
  bookings (insert_slots roomId ts fs d) = bookings d /\
  forall r, In r (room_availability (insert_slots roomId ts fs d)) ->
            occupied r -> In r (room_availability d).
Proof.
  induction ts as [|[date l] rest IH]; intros fs d; simpl; [auto|].
  set (d1 := if hd false fs then d else insert_slot roomId date l d).
  assert (H1 : bookings d1 = bookings d /\
               forall r, In r (room_availability d1) -> occupied r ->
                         In r (room_availability d)).
  { unfold d1. destruct (hd false fs); [auto|apply insert_ignore_frame]. }
  destruct (IH (tl fs) d1) as [Hb Hr]. destruct H1 as [Hb1 Hr1].
  split; [congruence|auto].
Qed.

Lemma bb_book (now : Z) (a : book_args) (f : book_faults) (d : db) :
  bound_and_booked d -> bound_and_booked (snd (book now a f d)).
Proof.
  intros Hd.
  destruct (book_outcome now a f d) as [[E _]|(_ & _ & _ & _ & _ & _ & _ & Hr)].
  { now rewrite E. }
  destruct Hr as [[_ E]|[_ E]]; rewrite E; simpl.
  - apply (bb_step d); [exact Hd| apply keys_kept_incl; simpl; apply incl_appl, incl_refl|].
    simpl. intros r' Hin Hocc. unfold mark_pending in Hin.
    apply in_map_iff in Hin as [x [Hx Hx']].
    destruct (slot_key (ba_roomId a) (ba_today a) (ba_timeSlot a) x) eqn:K.
    + right. subst r'. exists (ba_studentId a). split; [reflexivity|].
      exists (new_booking a). split; [apply in_or_app; right; left; reflexivity|].
      apply slot_key_true in K as (K1 & K2 & K3).
      unfold booking_matches; simpl. auto.
    + left. now subst.
  - destruct (f_rollback f); [|exact Hd].
    apply (bb_step d); [exact Hd| apply keys_kept_incl; simpl; apply incl_appl, incl_refl|].
    intros r' Hin _. left. exact Hin.
Qed.

Lemma update_booking_keys (bid st : string) (ap : option string) (ts : Z) (d : db) :
  bookings_keys_kept d (set_bookings d (update_booking bid st ap ts (bookings d))).
Proof.
  intros b Hb. simpl. unfold update_booking.
  exists (if String.eqb (bk_id b) bid
          then mkBooking (bk_id b) (bk_student_id b) (bk_room_id b) (bk_date b)
                 (bk_time_slot b) st ap (Some ts)
          else b).
  split; [apply (in_map (fun b => if String.eqb (bk_id b) bid
                then mkBooking (bk_id b) (bk_student_id b) (bk_room_id b) (bk_date b)
                       (bk_time_slot b) st ap (Some ts)
                else b)); exact Hb|].
  destruct (String.eqb (bk_id b) bid); simpl; auto.
Qed.

Lemma bb_decide (bid st : string) (ap : option string) (ts : Z) (f : decide_faults) (d : db) :
  bound_and_booked d -> bound_and_booked (snd (decide bid st ap ts f d)).
Proof.
  intros Hd. unfold decide.
  destruct (f_get f); [exact Hd|].
  destruct (find (fun b => String.eqb (bk_id b) bid) (bookings d)) as [b|] eqn:F; [|exact Hd].
  destruct (f_upd_booking f); [exact Hd|].
  pose proof (update_booking_keys bid st ap ts d) as Hk.
  destruct (f_upd_slot f); simpl.
  - apply (bb_step d); [exact Hd|exact Hk|]. intros r' Hin _. left. exact Hin.
  - apply (bb_step d); [exact Hd|exact Hk|]. simpl.
    intros r' Hin Hocc. unfold update_bound_slot in Hin.
    apply in_map_iff in Hin as [x [Hx Hx']].
    destruct (slot_key (bk_room_id b) (bk_date b) (bk_time_slot b) x) eqn:K;
      [|left; now subst].
    destruct (ra_student_id x) as [s|] eqn:S; simpl in Hx; [|left; now subst].
    destruct (String.eqb s (bk_student_id b)) eqn:Es; [|left; now subst].
    right. subst r'. apply String.eqb_eq in Es. subst s.
    exists (bk_student_id b). split; [exact S|].
    apply find_some in F as [Fin _].
    destruct (Hk b Fin) as [b' (Hb' & E1 & E2 & E3 & E4)].
    exists b'. split; [exact Hb'|].
    apply slot_key_true in K as (K1 & K2 & K3).
    unfold booking_matches; simpl. repeat split; congruence.
Qed.

Lemma bb_reset (day : Z) (fault : bool) (d : db) :
  bound_and_booked d -> bound_and_booked (resetRoomStatuses day fault d).
Proof.
  intros Hd. unfold resetRoomStatuses. destruct fault; [exact Hd|].
  apply (bb_frame d); [exact Hd|reflexivity|].
  simpl. intros r' Hin Hocc. apply in_map_iff in Hin as [x [Hx Hx']].
  destruct (_ && _); subst; [|exact Hx'].
  destruct Hocc; discriminate.
Qed.

Lemma bb_disable_room (rid : string) (today : Z) (f : room_faults) (d : db) :
  bound_and_booked d -> bound_and_booked (snd (disable_room rid today f d)).
Proof.
  intros Hd. unfold disable_room.
  destruct (f_room_check f); [exact Hd|].
  destruct (0 <? _)%nat; [exact Hd|].
  destruct (f_room_slots f); [exact Hd|].
  destruct (f_room_row f); simpl;
    (apply (bb_frame d); [exact Hd|reflexivity|]);
    intros r' Hin Hocc; simpl in Hin; refine (map_status_rows _ _ _ _ _ Hin Hocc); auto.
Qed.

Lemma bb_enable_room (rid : string) (today : Z) (f : room_faults) (d : db) :
  bound_and_booked d -> bound_and_booked (snd (enable_room rid today f d)).
Proof.
  intros Hd. unfold enable_room.
  destruct (f_room_slots f); [exact Hd|].
  destruct (f_room_row f); simpl;
    (apply (bb_frame d); [exact Hd|reflexivity|]);
    intros r' Hin Hocc; simpl in Hin; refine (map_status_rows _ _ _ _ _ Hin Hocc); auto.
Qed.

Lemma bb_disable_slot (rid ts : string) (today : Z) (f : slot_disable_faults) (d : db) :
  bound_and_booked d -> bound_and_booked (snd (disable_slot rid ts today f d)).
Proof.
  intros Hd. unfold disable_slot.
  destruct (f_sd_check f); [exact Hd|].
  destruct (find _ _); [|exact Hd].
  destruct (negb _); [exact Hd|].
  destruct (f_sd_update f); [exact Hd|].
  destruct (f_sd_count f); [|destruct (_ && _)]; simpl;
    (apply (bb_frame d); [exact Hd|reflexivity|]);
    intros r' Hin Hocc; simpl in Hin; refine (map_status_rows _ _ _ _ _ Hin Hocc); auto.
Qed.

Lemma bb_enable_slot (rid ts : string) (today : Z) (f : slot_enable_faults) (d : db) :
  bound_and_booked d -> bound_and_booked (snd (enable_slot rid ts today f d)).
Proof.
  intros Hd. unfold enable_slot.
  destruct (f_se_slot f); [exact Hd|].
  destruct (f_se_room f); simpl;
    (apply (bb_frame d); [exact Hd|reflexivity|]);
    intros r' Hin Hocc; simpl in Hin; refine (map_status_rows _ _ _ _ _ Hin Hocc); auto.
Qed.

Lemma bb_time_slots (now : Z) (rid : string) (today : Z) (f : slots_faults) (d : db) :
  bound_and_booked d -> bound_and_booked (snd (get_time_slots now rid today f d)).
Proof.
  intros Hd. unfold get_time_slots.
  destruct (f_select f); [exact Hd|].
  destruct (negb _); [exact Hd|].
  destruct (Nat.eqb _ 0); [exact Hd|].
  destruct (run_inserts_frame rid today (filter (isTimeSlotValid now) timeSlots)
                              (f_inserts f) d) as [Hb Hr].
  destruct (run_inserts rid today _ (f_inserts f) d) as [d1 err]. simpl in Hb, Hr.
  assert (H1 : bound_and_booked d1) by (apply (bb_frame d); auto).
  destruct err; [exact H1|]. destruct (f_fetch f); exact H1.
Qed.

Lemma bb_create_room (rid : string) (today tomorrow : Z) (fr : bool) (fs : list bool) (d : db) :
  bound_and_booked d -> bound_and_booked (snd (create_room rid today tomorrow fr fs d)).
Proof.
  intros Hd. unfold create_room.
  destruct (fr || _); [exact Hd|]. simpl.
  destruct (insert_slots_frame rid
              (flat_map (fun date => map (fun s => (date, s)) timeSlots) [today; tomorrow])
              fs (set_rooms d (rooms d ++ [mkRoom rid 0]))) as [Hb Hr].
  apply (bb_frame d); [exact Hd|exact Hb|exact Hr].
Qed.

Lemma bb_op_step (d d' : db) : op_step d d' -> bound_and_booked d -> bound_and_booked d'.
Proof.
  intros Hs. destruct Hs.
  - apply bb_book.
  - apply bb_decide.
  - apply bb_reset.
  - apply bb_disable_room.
  - apply bb_enable_room.
  - apply bb_disable_slot.
  - apply bb_enable_slot.
  - apply bb_time_slots.
  - apply bb_create_room.
Qed.

(** C2 (amended): in every store reachable from an empty one through the
    operations run one at a time, each pending or reserved slot row is
    bound to a student, and a booking row with the slot's room, date, time
    slot and that student exists. *)
Theorem reachable_bound_and_booked (d : db) : reachable d -> bound_and_booked d.
Proof.
  intros H. induction H as [|d d' _ IH Hs].
  - intros r [].
  - exact (bb_op_step d d' Hs IH).
Qed.

Lemma reachable_bound_and_booked_witness : reachable db_booked /\ bound_and_booked db_booked.
Proof.
  assert (R : reachable db_booked).
  { apply (reach_step db_room).
    - apply (reach_step empty_db); [exact reach_empty|].
      exact (OpCreateRoom "R1" 100 101 false [] empty_db).
    - exact (OpBook (hours 9) args_s1 no_book_faults db_room). }
  split; [exact R|]. apply (reachable_bound_and_booked db_booked R).
Defined.

(** C2 counterexample: after S1's booking is approved and the slot write
    fails, the store (reached one operation at a time) holds a pending slot
    whose only booking says Approved: the pending/Pending correspondence
    of the spec fails. *)
Lemma failed_slot_write_breaks_correspondence :
  reachable db_approved_slot_stale /\ ~ spec_slot_invariant db_approved_slot_stale.
Proof.
  split.
  - apply (reach_step db_booked).
    + apply (reach_step db_room).
      * apply (reach_step empty_db); [exact reach_empty|].
        exact (OpCreateRoom "R1" 100 101 false [] empty_db).
      * exact (OpBook (hours 9) args_s1 no_book_faults db_room).
    + exact (OpDecide "book_1" "Approved" (Some "L1") 5 (mkDecideFaults false false true)
                      db_booked).
  - intros H.
    set (r := mkAvail "08:00-10:00" Pending "R1" 100 (Some "S1") None).
    assert (Hin : In r (room_availability db_approved_slot_stale))
      by (vm_compute; auto 10).
    destruct (H r Hin) as (_ & _ & [Hp _] & _).
    destruct (Hp eq_refl) as (s & b & _ & Hb & _ & Hst).
    vm_compute in Hb. intuition (subst; discriminate).
Qed.

(** ** Keys of the tables over reachable stores *)

Lemma slot_key_row_key (rid : string) (dt : Z) (ts : string) (r : availability_row) :
  slot_key rid dt ts r = true <-> row_key r = (rid, dt, ts).
Proof.
  split.
  - intros H. apply slot_key_true in H as (H1 & H2 & H3). unfold row_key. congruence.
  - unfold row_key, slot_key. intros H. injection H as H1 H2 H3.
    rewrite H1, H2, H3, !String.eqb_refl, Z.eqb_refl. reflexivity.
Qed.

Lemma NoDup_snoc {A : Type} (l : list A) (x : A) :
  NoDup l -> ~ In x l -> NoDup (l ++ [x]).
Proof.
  intros H Hx. apply (Permutation_NoDup (Permutation_cons_append l x)).
  constructor; assumption.
Qed.

Lemma existsb_false_map {A B : Type} (g : A -> B) (p : A -> bool) (x : B) (l : list A) :
  (forall y, g y = x -> p y = true) -> existsb p l = false -> ~ In x (map g l).
Proof.
  intros H E Hin. apply in_map_iff in Hin as [y [Hy Hin]].
  assert (T : existsb p l = true) by (apply existsb_exists; exists y; auto).
  congruence.
Qed.

Lemma map_keys_ext (g : availability_row -> availability_row) (rs : list availability_row) :
  (forall r, row_key (g r) = row_key r) -> map row_key (map g rs) = map row_key rs.
Proof. intros H. rewrite map_map. apply map_ext. exact H. Qed.

Lemma keys_same_grow (d d' : db) :
  map row_key (room_availability d') = map row_key (room_availability d) -> keys_grow d d'.
Proof. intros H. exists []. rewrite app_nil_r, H. auto. Qed.

Lemma keys_grow_refl (d : db) : keys_grow d d.
Proof. apply keys_same_grow. reflexivity. Qed.

Lemma keys_grow_trans (d1 d2 d3 : db) : keys_grow d1 d2 -> keys_grow d2 d3 -> keys_grow d1 d3.
Proof.
  intros [e1 [H1 N1]] [e2 [H2 N2]]. exists (e1 ++ e2)%list. split; [|auto].
  rewrite H2, H1, app_assoc. reflexivity.
Qed.

Lemma insert_ignore_grow (roomId : string) (today : Z) (l : string) (d : db) :
  keys_grow d (insert_ignore_slot roomId today l d).
Proof.
  unfold insert_ignore_slot. destruct (existsb _ _) eqn:E; [apply keys_grow_refl|].
  exists [(roomId, today, l)]. simpl. rewrite map_app. split; [reflexivity|].
  intros N. apply NoDup_snoc; [exact N|].
  apply (existsb_false_map row_key (slot_key roomId today l)); [|exact E].
  intros y Hy. now apply slot_key_row_key.
Qed.

Lemma run_inserts_grow (roomId : string) (today : Z) (labels : list string) :
  forall (fs : list bool) (d : db), keys_grow d (fst (run_inserts roomId today labels fs d)).
Proof.
  induction labels as [|l rest IH]; intros fs d; simpl; [apply keys_grow_refl|].
  set (d1 := if hd false fs then d else insert_ignore_slot roomId today l d).
  assert (G : keys_grow d d1).
  { unfold d1. destruct (hd false fs); [apply keys_grow_refl|apply insert_ignore_grow]. }
  specialize (IH (tl fs) d1).
  destruct (run_inserts roomId today rest (tl fs) d1) as [d2 e]. simpl in *.
  exact (keys_grow_trans _ _ _ G IH).
Qed.

Lemma insert_slots_grow (roomId : string) (ts : list (Z * string)) :
  forall (fs : list bool) (d : db), keys_grow d (insert_slots roomId ts fs d).
Proof.
  induction ts as [|[date l] rest IH]; intros fs d; simpl; [apply keys_grow_refl|].
  eapply keys_grow_trans; [|apply IH].
  destruct (hd false fs); [apply keys_grow_refl|apply insert_ignore_grow].
Qed.

Ltac keys_by_map :=
  apply keys_same_grow; simpl;
  first [ reflexivity
        | apply map_keys_ext; intros ?; repeat match goal with
            | |- context [if ?c then _ else _] => destruct c
            end; reflexivity ].

Lemma op_keys_grow (d d' : db) : op_step d d' -> keys_grow d d'.
Proof.
  intros Hs. destruct Hs.
  - destruct (book_outcome now a f d) as [[E _]|(_ & _ & _ & _ & _ & _ & _ & Hr)].
    + rewrite E. apply keys_grow_refl.
    + destruct Hr as [[_ E]|[_ E]]; rewrite E; simpl.
      * apply keys_same_grow. simpl. unfold mark_pending. apply map_keys_ext.
        intros r. destruct (slot_key _ _ _ r); reflexivity.
      * destruct (f_rollback f); apply keys_same_grow; reflexivity.
  - unfold decide. destruct (f_get f); [apply keys_grow_refl|].
    destruct (find _ _) as [b|]; [|apply keys_grow_refl].
    destruct (f_upd_booking f); [apply keys_grow_refl|].
    destruct (f_upd_slot f); keys_by_map.
  - unfold resetRoomStatuses. destruct fault; [apply keys_grow_refl|]. keys_by_map.
  - unfold disable_room. split_ifs; keys_by_map.
  - unfold enable_room. split_ifs; keys_by_map.
  - unfold disable_slot. split_ifs; keys_by_map.
  - unfold enable_slot. split_ifs; keys_by_map.
  - unfold get_time_slots.
    destruct (f_select f); [apply keys_grow_refl|].
    destruct (negb _); [apply keys_grow_refl|].
    destruct (Nat.eqb _ 0); [apply keys_grow_refl|].
    pose proof (run_inserts_grow rid today (filter (isTimeSlotValid now) timeSlots)
                                 (f_inserts f) d) as G.
    destruct (run_inserts rid today _ (f_inserts f) d) as [d1 err]. simpl in G.
    destruct err; [exact G|]. destruct (f_fetch f); exact G.
  - unfold create_room. destruct (fr || _); [apply keys_grow_refl|].
    cbv beta iota zeta delta [snd].
    eapply keys_grow_trans; [|apply insert_slots_grow]. apply keys_same_grow. reflexivity.
Qed.

Lemma update_booking_map {B : Type} (g : booking -> B) (bid st : string)
    (ap : option string) (ts : Z) (bs : list booking) :
  (forall b, g (mkBooking (bk_id b) (bk_student_id b) (bk_room_id b) (bk_date b)
                          (bk_time_slot b) st ap (Some ts)) = g b) ->
  map g (update_booking bid st ap ts bs) = map g bs.
Proof.
  intros H. unfold update_booking. rewrite map_map. apply map_ext.
  intros b. destruct (String.eqb (bk_id b) bid); auto.
Qed.

Lemma op_bookings_shape (d d' : db) :
  op_step d d' ->
  bookings d' = bookings d \/
  (exists bid st ap ts, bookings d' = update_booking bid st ap ts (bookings d)) \/
  (exists a, existsb (fun b => String.eqb (bk_id b) (ba_bookingId a)) (bookings d) = false /\
             existsb (fun b => String.eqb (bk_student_id b) (ba_studentId a)
                               && (bk_date b =? ba_today a)) (bookings d) = false /\
             bookings d' = (bookings d ++ [new_booking a])%list).
Proof.
  intros Hs. destruct Hs.
  - destruct (book_outcome now a f d)
      as [[E _]|(_ & _ & Hday & _ & _ & _ & Hid & Hr)]; [left; now rewrite E|].
    destruct Hr as [[_ E]|[_ E]]; rewrite E; simpl.
    + right; right. exists a. auto.
    + destruct (f_rollback f); simpl; [right; right; exists a; auto|left; reflexivity].
  - unfold decide. destruct (f_get f); [left; reflexivity|].
    destruct (find _ _) as [b|]; [|left; reflexivity].
    destruct (f_upd_booking f); [left; reflexivity|].
    right; left. exists bid, st, ap, ts. destruct (f_upd_slot f); reflexivity.
  - left. unfold resetRoomStatuses. destruct fault; reflexivity.
  - left. unfold disable_room. split_ifs; reflexivity.
  - left. unfold enable_room. split_ifs; reflexivity.
  - left. unfold disable_slot. split_ifs; reflexivity.
  - left. unfold enable_slot. split_ifs; reflexivity.
  - left. unfold get_time_slots.
    destruct (f_select f); [reflexivity|].
    destruct (negb _); [reflexivity|].
    destruct (Nat.eqb _ 0); [reflexivity|].
    destruct (run_inserts_frame rid today (filter (isTimeSlotValid now) timeSlots)
                                (f_inserts f) d) as [Hb _].
    destruct (run_inserts rid today _ (f_inserts f) d) as [d1 err]. simpl in Hb.
    destruct err; [exact Hb|]. destruct (f_fetch f); exact Hb.
  - left. unfold create_room. destruct (fr || _); [reflexivity|].
    cbv beta iota zeta delta [snd].
    destruct (insert_slots_frame rid
                (flat_map (fun date => map (fun s => (date, s)) timeSlots) [today; tomorrow])
                fs (set_rooms d (rooms d ++ [mkRoom rid 0]))) as [Hb _].
    exact Hb.
Qed.

Lemma reachable_db_booked : reachable db_booked.
Proof.
  apply (reach_step db_room).
  - apply (reach_step empty_db); [exact reach_empty|].
    exact (OpCreateRoom "R1" 100 101 false [] empty_db).
  - exact (OpBook (hours 9) args_s1 no_book_faults db_room).
Qed.

(** ** Unique keys and kept rows *)

(** X1: in every store reached one call at a time, a student has at most
    one booking row per date, whatever the statuses of the rows: the
    [checkSql] lookup of [POST /api/bookings] ignores the status. *)
Theorem reachable_one_booking_per_day (d : db) :
  reachable d -> NoDup (map booking_day (bookings d)).
Proof.
  intros H. induction H as [|d d' _ IH Hs]; [constructor|].
  destruct (op_bookings_shape d d' Hs) as [E|[(bid & st & ap & ts & E)|(a & _ & Hday & E)]];
    rewrite E.
  - exact IH.
  - rewrite update_booking_map; [exact IH|reflexivity].
  - rewrite map_app. apply NoDup_snoc; [exact IH|].
    apply (existsb_false_map booking_day
             (fun b => String.eqb (bk_student_id b) (ba_studentId a)
                       && (bk_date b =? ba_today a))); [|exact Hday].
    intros y Hy. unfold booking_day in Hy. simpl in Hy. injection Hy as H1 H2.
    rewrite H1, H2, String.eqb_refl, Z.eqb_refl. reflexivity.
Qed.

Lemma reachable_one_booking_per_day_witness :
  reachable db_booked /\ NoDup (map booking_day (bookings db_booked)).
Proof.
  split; [exact reachable_db_booked|].
  exact (reachable_one_booking_per_day db_booked reachable_db_booked).
Defined.

(** X2: no operation deletes a slot row: every (room, date, time slot)
    present before a call is present after it. *)
Theorem op_step_keeps_slot_rows (d d' : db) :
  op_step d d' ->
  forall k, In k (map row_key (room_availability d)) ->
            In k (map row_key (room_availability d')).
Proof.
  intros Hs k Hk. destruct (op_keys_grow d d' Hs) as [ext [E _]].
  rewrite E. apply in_or_app. left. exact Hk.
Qed.

Lemma op_step_keeps_slot_rows_witness :
  op_step db_room db_booked /\
  In ("R1", 100, "08:00-10:00") (map row_key (room_availability db_booked)).
Proof.
  split; [exact (OpBook (hours 9) args_s1 no_book_faults db_room)|].
  apply (op_step_keeps_slot_rows db_room db_booked
           (OpBook (hours 9) args_s1 no_book_faults db_room)).
  vm_compute. auto.
Defined.

(** X3: no operation deletes a booking row that existed before the call;
    its id, student, room, date and time slot stay as they were (only a
    decision changes its status and approval fields). The compensating
    DELETE of [POST /api/bookings] only removes the row the same call
    inserted. *)
Theorem op_step_keeps_bookings (d d' : db) :
  op_step d d' ->
  forall b, In b (bookings d) ->
  exists b', In b' (bookings d') /\ bk_id b' = bk_id b /\
             bk_student_id b' = bk_student_id b /\ bk_room_id b' = bk_room_id b /\
             bk_date b' = bk_date b /\ bk_time_slot b' = bk_time_slot b.
Proof.
  intros Hs b Hb.
  destruct (op_bookings_shape d d' Hs) as [E|[(bid & st & ap & ts & E)|(a & _ & _ & E)]];
    rewrite E.
  - exists b. auto 7.
  - exists (if String.eqb (bk_id b) bid
            then mkBooking (bk_id b) (bk_student_id b) (bk_room_id b) (bk_date b)
                   (bk_time_slot b) st ap (Some ts)
            else b).
    split.
    + unfold update_booking.
      apply (in_map (fun b => if String.eqb (bk_id b) bid
                              then mkBooking (bk_id b) (bk_student_id b) (bk_room_id b)
                                     (bk_date b) (bk_time_slot b) st ap (Some ts)
                              else b)). exact Hb.
    + destruct (String.eqb (bk_id b) bid); simpl; auto 7.
  - exists b. split; [apply in_or_app; left; exact Hb|auto].
Qed.

Lemma op_step_keeps_bookings_witness :
  op_step db_booked db_approved_slot_stale /\
  exists b', In b' (bookings db_approved_slot_stale) /\ bk_id b' = "book_1" /\
             bk_student_id b' = "S1" /\ bk_room_id b' = "R1" /\
             bk_date b' = 100 /\ bk_time_slot b' = "08:00-10:00".
Proof.
  assert (S : op_step db_booked db_approved_slot_stale)
    by exact (OpDecide "book_1" "Approved" (Some "L1") 5 (mkDecideFaults false false true)
                       db_booked).
  split; [exact S|].
  apply (op_step_keeps_bookings db_booked db_approved_slot_stale S (new_booking args_s1)).
  vm_compute. auto.
Defined.

(** ** A rejected booking's slot *)

Lemma nodup_key_eq (l : list availability_row) (x y : availability_row) :
  NoDup (map row_key l) -> In x l -> In y l -> row_key x = row_key y -> x = y.
Proof.
  induction l as [|z l IH]; simpl; [tauto|]. intros N Hx Hy E.
  inversion N as [|k ks Hnin N' Heq]; subst.
  destruct Hx as [<-|Hx], Hy as [<-|Hy]; auto.
  - exfalso. apply Hnin. rewrite E. now apply in_map.
  - exfalso. apply Hnin. rewrite <- E. now apply in_map.
Qed.

Lemma with_status_key (st : slot_status) (r : availability_row) :
  row_key (with_status st r) = row_key r.
Proof. reflexivity. Qed.

Lemma slot_key_with_status (rid : string) (dt : Z) (ts : string) (st : slot_status)
    (r : availability_row) :
  slot_key rid dt ts (with_status st r) = slot_key rid dt ts r.
Proof. reflexivity. Qed.

Lemma only_row_reset (key : availability_row -> bool) (x : availability_row)
    (day : Z) (fault : bool) (d : db) :
  key x = true -> ra_status x = Free ->
  (forall y, key (mkAvail (ra_time_slot y) Free (ra_room_id y) (ra_date y) None None)
             = key y) ->
  only_row key x d -> only_row key x (resetRoomStatuses day fault d).
Proof.
  intros Hkx Hfree Hkey [Hin Hall]. unfold resetRoomStatuses.
  destruct fault; [split; assumption|]. unfold reset_sql. simpl. split.
  - replace x with (if (ra_date x =? day + 1) && (slot_status_eqb (ra_status x) Pending
                                               || slot_status_eqb (ra_status x) Reserved)
                    then mkAvail (ra_time_slot x) Free (ra_room_id x) (ra_date x) None None
                    else x) at 1 by (rewrite Hfree; now rewrite andb_false_r).
    apply (in_map (fun r => if (ra_date r =? day + 1) && (slot_status_eqb (ra_status r) Pending
                                               || slot_status_eqb (ra_status r) Reserved)
                    then mkAvail (ra_time_slot r) Free (ra_room_id r) (ra_date r) None None
                    else r)). exact Hin.
  - intros y Hy Hky. apply in_map_iff in Hy as [z [Hz Hzin]].
    destruct (_ && _) eqn:C; subst y.
    + rewrite Hkey in Hky. specialize (Hall z Hzin Hky). subst z.
      rewrite Hfree in C. now rewrite andb_false_r in C.
    + exact (Hall z Hzin Hky).
Qed.

Lemma only_row_resets (key : availability_row -> bool) (x : availability_row)
    (resets : list (Z * bool)) :
  key x = true -> ra_status x = Free ->
  (forall y, key (mkAvail (ra_time_slot y) Free (ra_room_id y) (ra_date y) None None)
             = key y) ->
  forall d, only_row key x d ->
  only_row key x (fold_left (fun acc p => resetRoomStatuses (fst p) (snd p) acc) resets d).
Proof.
  intros Hkx Hfree Hkey. induction resets as [|[day fault] rest IH]; intros d H; simpl; auto.
  apply IH. now apply only_row_reset.
Qed.

(** X4: when a decision that does not approve (any status other than
    'approved' in any letter case) runs with both writes succeeding, the
    booking's slot row becomes free but keeps its bound student, and no
    number of daily resets changes that row (they only touch pending and
    reserved rows). From then on no call of POST /api/bookings for that
    room, date and time slot succeeds; when the call's checks run, its
    reply is 'Time slot is already booked by another student'. Slot keys
    are assumed unique, as in every reachable store. *)
Theorem rejected_slot_stays_bound (d : db) (bid st : string) (ap : option string) (ts : Z)
    (b : booking) (r : availability_row) :
  NoDup (map row_key (room_availability d)) ->
  find (fun b => String.eqb (bk_id b) bid) (bookings d) = Some b ->
  In r (room_availability d) ->
  slot_key (bk_room_id b) (bk_date b) (bk_time_slot b) r = true ->
  ra_student_id r = Some (bk_student_id b) -> JS.truthy (bk_student_id b) = true ->
  availability_status st = Free ->
  forall resets : list (Z * bool),
  let d2 := fold_left (fun acc p => resetRoomStatuses (fst p) (snd p) acc) resets
                      (snd (decide bid st ap ts no_decide_faults d)) in
  In (with_status Free r) (room_availability d2) /\
  (forall now a f, ba_roomId a = bk_room_id b -> ba_today a = bk_date b ->
     ba_timeSlot a = bk_time_slot b ->
     (forall id, fst (book now a f d2) <> RBooked id) /\
     (book_start now a = goto BkCheck -> f_check f = false -> f_slot_check f = false ->
      f_status_check f = false ->
      existsb (fun b' => String.eqb (bk_student_id b') (ba_studentId a)
                         && (bk_date b' =? ba_today a)) (bookings d2) = false ->
      book now a f d2 = (RError 400 "Time slot is already booked by another student", d2))).
Proof.
  intros N Hf Hr Hk Hs Ht Hst resets. cbv zeta.
  set (key := slot_key (bk_room_id b) (bk_date b) (bk_time_slot b)).
  set (x := with_status Free r).
  assert (D1 : only_row key x (snd (decide bid st ap ts no_decide_faults d))).
  { unfold decide. simpl. rewrite Hf. simpl. rewrite Hst. unfold update_bound_slot.
    set (g := fun r0 => if slot_key (bk_room_id b) (bk_date b) (bk_time_slot b) r0
                           && match ra_student_id r0 with
                              | Some s => String.eqb s (bk_student_id b)
                              | None => false
                              end
                        then with_status Free r0 else r0).
    assert (Gr : g r = x).
    { unfold g. rewrite Hk, Hs, String.eqb_refl. reflexivity. }
    split.
    - rewrite <- Gr. apply in_map. exact Hr.
    - intros y Hy Hky. apply in_map_iff in Hy as [z [Hz Hzin]].
      assert (Kz : key z = true).
      { rewrite <- Hz in Hky. unfold g in Hky.
        destruct (_ && _) in Hky; exact Hky. }
      assert (Ez : z = r).
      { apply (nodup_key_eq (room_availability d)); auto.
        apply slot_key_row_key in Kz. apply slot_key_row_key in Hk. congruence. }
      subst z. rewrite <- Hz. exact Gr. }
  assert (D2 : only_row key x
                 (fold_left (fun acc p => resetRoomStatuses (fst p) (snd p) acc) resets
                            (snd (decide bid st ap ts no_decide_faults d)))).
  { apply only_row_resets; [unfold x, key; rewrite slot_key_with_status; exact Hk
                           |reflexivity| intros y; reflexivity | exact D1]. }
  set (d2 := fold_left _ resets _) in *.
  destruct D2 as [Hin Hall].
  split; [exact Hin|].
  intros now a f Ha1 Ha2 Ha3.
  assert (Kx : key x = true) by (unfold x, key; rewrite slot_key_with_status; exact Hk).
  assert (Ux : unbound x = false).
  { unfold x, unbound. simpl. rewrite Hs. unfold JS.truthy in Ht.
    destruct (String.eqb (bk_student_id b) ""); [discriminate|reflexivity]. }
  assert (NoFree : existsb (fun r => slot_key (ba_roomId a) (ba_today a) (ba_timeSlot a) r
                                     && slot_status_eqb (ra_status r) Free && unbound r)
                           (room_availability d2) = false).
  { rewrite Ha1, Ha2, Ha3. apply not_true_is_false. intros E.
    apply existsb_exists in E as [y [Hy Ey]].
    apply andb_prop in Ey as [Ey Uy]. apply andb_prop in Ey as [Ky _].
    rewrite (Hall y Hy Ky) in Uy. congruence. }
  split.
  - intros id.
    destruct (book_outcome now a f d2) as [[_ Hne]|(_ & _ & _ & _ & Hfree & _)].
    + apply Hne.
    + congruence.
  - intros Hst0 Hc Hsc Hstc Hday.
    assert (Hfind : find (slot_key (ba_roomId a) (ba_today a) (ba_timeSlot a))
                         (room_availability d2) = Some x).
    { rewrite Ha1, Ha2, Ha3. fold key.
      destruct (find key (room_availability d2)) as [y|] eqn:F.
      - apply find_some in F as [Fy Ky]. now rewrite (Hall y Fy Ky).
      - exfalso. apply find_none with (x := x) in F; [congruence|exact Hin]. }
    unfold book. rewrite Hst0. simpl book_run. unfold book_step.
    rewrite Hc, Hsc, Hstc. cbv beta iota zeta delta [goto finish bk_pc bk_reply fst snd].
    rewrite Hday, NoFree. cbv beta iota zeta delta [goto finish bk_pc bk_reply fst snd].
    rewrite Hfind. unfold status_message, x. simpl. unfold student_truthy. simpl.
    rewrite Hs, Ht. reflexivity.
Qed.

Lemma rejected_slot_stays_bound_witness :
  fst (book (hours 9) args_s2 no_book_faults
         (fold_left (fun acc p => resetRoomStatuses (fst p) (snd p) acc) [(100, false); (101, false)]
                    (snd (decide "book_1" "Rejected" (Some "L1") 5 no_decide_faults db_booked)))) =
    RError 400 "Time slot is already booked by another student".
Proof.
  assert (N : NoDup (map row_key (room_availability db_booked))).
  { vm_compute. repeat constructor; simpl; intuition discriminate. }
  assert (Hin : In (mkAvail "08:00-10:00" Pending "R1" 100 (Some "S1") None)
                   (room_availability db_booked)) by (vm_compute; auto 10).
  pose proof (rejected_slot_stays_bound db_booked "book_1" "Rejected" (Some "L1") 5
                (new_booking args_s1) (mkAvail "08:00-10:00" Pending "R1" 100 (Some "S1") None)
                N eq_refl Hin eq_refl eq_refl eq_refl eq_refl [(100, false); (101, false)]) as T.
  cbv zeta in T. destruct T as [_ H].
  destruct (H (hours 9) args_s2 no_book_faults eq_refl eq_refl eq_refl) as [_ H2].
  rewrite H2; [reflexivity|reflexivity|reflexivity|reflexivity|reflexivity|].
  vm_compute. reflexivity.
Defined.

(** ** One booking per student and day, whatever happens to it *)

Lemma op_step_day_kept (d d' : db) (b : booking) :
  op_step d d' -> In b (bookings d) ->
  exists b', In b' (bookings d') /\ booking_day b' = booking_day b.
Proof.
  intros Hs Hb.
  destruct (op_bookings_shape d d' Hs) as [E|[(bid & st & ap & ts & E)|(a & _ & _ & E)]];
    rewrite E.
  - exists b. auto.
  - exists (if String.eqb (bk_id b) bid
            then mkBooking (bk_id b) (bk_student_id b) (bk_room_id b) (bk_date b)
                   (bk_time_slot b) st ap (Some ts)
            else b).
    split.
    + apply (in_map (fun b => if String.eqb (bk_id b) bid
                              then mkBooking (bk_id b) (bk_student_id b) (bk_room_id b)
                                     (bk_date b) (bk_time_slot b) st ap (Some ts)
                              else b)). exact Hb.
    + destruct (String.eqb (bk_id b) bid); reflexivity.
  - exists b. split; [apply in_or_app; left; exact Hb|reflexivity].
Qed.

Lemma star_day_kept (d d' : db) (b : booking) :
  clos_refl_trans_1n db op_step d d' -> In b (bookings d) ->
  exists b', In b' (bookings d') /\ booking_day b' = booking_day b.
Proof.
  intros H. revert b. induction H as [d|d d1 d' Hs _ IH]; intros b Hb.
  - exists b. auto.
  - destruct (op_step_day_kept d d1 b Hs Hb) as [b1 [Hb1 E1]].
    destruct (IH b1 Hb1) as [b' [Hb' E']]. exists b'. split; [exact Hb'|congruence].
Qed.

(** X5: once a student has a booking row for a date, whatever operations
    follow (its approval or rejection, daily resets, staff changes), the
    has-booked-today endpoint answers true for that student and date, and
    every call of POST /api/bookings by that student for that date whose
    input checks pass and whose first query runs is refused with 'You can
    only book one slot per day', the store unchanged. *)
Theorem booked_day_stays_blocked (d d' : db) (b : booking) (now : Z) (a : book_args)
    (f : book_faults) :
  In b (bookings d) -> clos_refl_trans_1n db op_step d d' ->
  ba_studentId a = bk_student_id b -> ba_today a = bk_date b ->
  book_start now a = goto BkCheck -> f_check f = false ->
  has_booked_today (bk_student_id b) (bk_date b) false d' = HBReply true /\
  book now a f d' = (RError 400 "You can only book one slot per day", d').
Proof.
  intros Hb Hstar Ha1 Ha2 Hst Hc.
  destruct (star_day_kept d d' b Hstar Hb) as [b' [Hb' E]].
  unfold booking_day in E. injection E as E1 E2.
  assert (P : (fun x => String.eqb (bk_student_id x) (bk_student_id b)
                        && (bk_date x =? bk_date b)) b' = true).
  { simpl. rewrite E1, E2, String.eqb_refl, Z.eqb_refl. reflexivity. }
  split.
  - unfold has_booked_today.
    assert (Hf : In b' (filter (fun x => String.eqb (bk_student_id x) (bk_student_id b)
                                         && (bk_date x =? bk_date b)) (bookings d')))
      by (apply filter_In; auto).
    destruct (filter _ (bookings d')); [contradiction|reflexivity].
  - assert (X : existsb (fun x => String.eqb (bk_student_id x) (ba_studentId a)
                                  && (bk_date x =? ba_today a)) (bookings d') = true).
    { apply existsb_exists. exists b'. rewrite Ha1, Ha2. auto. }
    unfold book. rewrite Hst. simpl book_run. unfold book_step.
    rewrite Hc. cbv beta iota zeta delta [goto finish bk_pc bk_reply fst snd].
    rewrite X. reflexivity.
Qed.

Lemma booked_day_stays_blocked_witness :
  book (hours 9) (mkBookArgs "S1" "R1" "10:00-12:00" 100 "book_3") no_book_faults
       (snd (decide "book_1" "Rejected" (Some "L1") 5 no_decide_faults db_booked)) =
    (RError 400 "You can only book one slot per day",
     snd (decide "book_1" "Rejected" (Some "L1") 5 no_decide_faults db_booked)).
Proof.
  assert (S : clos_refl_trans_1n db op_step db_booked
                (snd (decide "book_1" "Rejected" (Some "L1") 5 no_decide_faults db_booked))).
  { econstructor 2; [exact (OpDecide "book_1" "Rejected" (Some "L1") 5
                                        no_decide_faults db_booked)|].
    constructor. }
  assert (Hb : In (new_booking args_s1) (bookings db_booked)) by (vm_compute; auto).
  apply (booked_day_stays_blocked db_booked _ (new_booking args_s1) (hours 9)
           (mkBookArgs "S1" "R1" "10:00-12:00" 100 "book_3") no_book_faults Hb S);
    reflexivity.
Defined.

(** ** The booking handler and the rooms table *)

Lemma book_step_rooms (a : book_args) (f : book_faults) (t : book_thread) (d : db)
    (rs : list room) :
  book_step a f t (set_rooms d rs) =
    (fst (book_step a f t d), set_rooms (snd (book_step a f t d)) rs).
Proof.
  destruct t as [pc rep]. unfold book_step.
  destruct pc; simpl; split_ifs; reflexivity.
Qed.

Lemma book_run_rooms (n : nat) (a : book_args) (f : book_faults) (rs : list room) :
  forall t d, book_run n a f t (set_rooms d rs) =
              (fst (book_run n a f t d), set_rooms (snd (book_run n a f t d)) rs).
Proof.
  induction n as [|n IH]; intros t d; simpl; [reflexivity|].
  rewrite book_step_rooms. destruct (book_step a f t d) as [t' d']. simpl. apply IH.
Qed.

(** X6: POST /api/bookings neither reads nor writes the rooms table: with
    other room records (a room marked disabled, or no room record at all)
    the reply and the resulting slot and booking tables are the same, and
    the room records come out as they went in. *)
Theorem book_ignores_rooms (now : Z) (a : book_args) (f : book_faults) (d : db)
    (rs : list room) :
  book now a f (set_rooms d rs) = (fst (book now a f d), set_rooms (snd (book now a f d)) rs).
Proof.
  unfold book. rewrite book_run_rooms.
  destruct (book_run 6 a f (book_start now a) d) as [t d']. reflexivity.
Qed.

(** ** Disable, then enable *)

Lemma with_status_free_back (r : availability_row) :
  ra_status r = Free -> with_status Free (with_status Disabled r) = r.
Proof. destruct r; simpl. intros ->. reflexivity. Qed.

(** X7: when a per-slot disable succeeds (reply success) and the following
    per-slot enable of the same slot runs its slot statement, the slot
    rows are back to exactly what they were before the disable. Slot keys
    are assumed unique, as in every reachable store. *)
Theorem disable_enable_slot_roundtrip (rid ts : string) (today : Z)
    (fd : slot_disable_faults) (fe : slot_enable_faults) (d : db) :
  NoDup (map row_key (room_availability d)) ->
  fst (disable_slot rid ts today fd d) = RSuccess "" ->
  f_se_slot fe = false ->
  room_availability (snd (enable_slot rid ts today fe (snd (disable_slot rid ts today fd d)))) =
    room_availability d.
Proof.
  intros N Hok He. unfold disable_slot in *.
  destruct (f_sd_check fd); [discriminate|].
  destruct (find (slot_key rid today ts) (room_availability d)) as [r|] eqn:F; [|discriminate].
  destruct (negb (slot_status_eqb (ra_status r) Free)) eqn:Fr; [discriminate|].
  destruct (f_sd_update fd); [discriminate|].
  destruct (f_sd_count fd); [discriminate|].
  apply find_some in F as [Hr Kr].
  assert (Rf : ra_status r = Free) by (destruct (ra_status r); now inversion Fr).
  unfold enable_slot. rewrite He. cbv zeta.
  simpl;
  repeat match goal with
         | |- context [room_availability (if ?c then _ else _)] => destruct c
         end; simpl;
  (rewrite map_map; rewrite <- (map_id (room_availability d)) at 2; apply map_ext_in;
   intros x Hx;
   destruct (slot_key rid today ts x) eqn:Kx;
   [ assert (Ex : x = r) by
       (apply (nodup_key_eq (room_availability d)); auto;
        apply slot_key_row_key in Kx; apply slot_key_row_key in Kr; congruence);
     subst x; rewrite slot_key_with_status, Kx; simpl; rewrite with_status_free_back; auto
   | rewrite Kx; reflexivity ]).
Qed.

Lemma disable_enable_slot_roundtrip_witness :
  room_availability
    (snd (enable_slot "R1" "10:00-12:00" 100 (mkSlotEnableFaults false false)
            (snd (disable_slot "R1" "10:00-12:00" 100
                    (mkSlotDisableFaults false false false false) db_booked)))) =
  room_availability db_booked.
Proof.
  apply disable_enable_slot_roundtrip.
  - vm_compute. repeat constructor; simpl; intuition discriminate.
  - reflexivity.
  - reflexivity.
Defined.

(** X8: when a room disable succeeds and the following room enable runs
    both of its statements, the slot rows are back to exactly what they
    were, the bookings are untouched, and every record of the room has
    [is_disabled = 0] (the other rooms as they were). The disable only
    succeeds when all of the room's rows for the day are free, so the
    enable turns back exactly the rows the disable changed. *)
Theorem disable_enable_room_roundtrip (rid : string) (today : Z)
    (fd fe : room_faults) (d : db) :
  fst (disable_room rid today fd d) = RSuccess "Room disabled successfully" ->
  f_room_slots fe = false -> f_room_row fe = false ->
  let d' := snd (enable_room rid today fe (snd (disable_room rid today fd d))) in
  room_availability d' = room_availability d /\ bookings d' = bookings d /\
  rooms d' = map (fun rm => if String.eqb (rm_id rm) rid then mkRoom (rm_id rm) 0 else rm)
                 (rooms d).
Proof.
  intros Hok Hs Hr. unfold disable_room in *.
  destruct (f_room_check fd); [discriminate|].
  destruct (0 <? length _)%nat eqn:C; [discriminate|].
  destruct (f_room_slots fd); [discriminate|].
  destruct (f_room_row fd); [discriminate|].
  assert (AllFree : forall x, In x (room_availability d) ->
            String.eqb (ra_room_id x) rid && (ra_date x =? today) = true ->
            ra_status x = Free).
  { intros x Hx Kx.
    destruct (filter (fun r => String.eqb (ra_room_id r) rid && (ra_date r =? today)
                               && negb (slot_status_eqb (ra_status r) Free))
                     (room_availability d)) eqn:Fl; [|discriminate].
    assert (Nx : ~ In x (filter (fun r => String.eqb (ra_room_id r) rid && (ra_date r =? today)
                               && negb (slot_status_eqb (ra_status r) Free))
                     (room_availability d))) by (rewrite Fl; auto).
    rewrite filter_In in Nx. rewrite Kx in Nx.
    destruct (ra_status x); auto; exfalso; apply Nx; auto. }
  unfold enable_room. rewrite Hs, Hr. simpl. split; [|split; [reflexivity|]].
  - rewrite map_map. rewrite <- (map_id (room_availability d)) at 2. apply map_ext_in.
    intros x Hx.
    destruct (String.eqb (ra_room_id x) rid && (ra_date x =? today)) eqn:Kx.
    + rewrite (AllFree x Hx Kx). simpl. rewrite Kx. simpl.
      apply with_status_free_back. exact (AllFree x Hx Kx).
    + simpl. rewrite Kx. reflexivity.
  - rewrite map_map. apply map_ext. intros rm.
    destruct (String.eqb (rm_id rm) rid) eqn:E; simpl; rewrite ?E; reflexivity.
Qed.

Lemma disable_enable_room_roundtrip_witness :
  room_availability
    (snd (enable_room "R1" 101 no_room_faults (snd (disable_room "R1" 101 no_room_faults db_booked))))
  = room_availability db_booked.
Proof.
  apply (disable_enable_room_roundtrip "R1" 101 no_room_faults no_room_faults db_booked);
    reflexivity.
Defined.

(** ** GET /api/rooms/:roomId/time-slots: what it returns *)

Lemma insert_by_slot_in (x r : availability_row) (l : list availability_row) :
  In r (insert_by_slot x l) -> r = x \/ In r l.
Proof.
  induction l as [|y l IH]; simpl; [intros [H|[]]; auto|].
  destruct (String.leb (ra_time_slot x) (ra_time_slot y)); simpl.
  - intros [H|[H|H]]; subst; auto.
  - intros [H|H]; [auto|]. destruct (IH H); auto.
Qed.

Lemma order_by_slot_in (r : availability_row) (l : list availability_row) :
  In r (order_by_slot l) -> In r l.
Proof.
  unfold order_by_slot. induction l as [|x l IH]; simpl; [auto|].
  intros H. destruct (insert_by_slot_in x r _ H); auto.
Qed.

Lemma select_slots_in (rid : string) (today : Z) (d : db) (r : availability_row) :
  In r (select_slots rid today d) ->
  In r (room_availability d) /\ ra_room_id r = rid /\ ra_date r = today.
Proof.
  unfold select_slots. intros H. apply order_by_slot_in, filter_In in H as [H1 H2].
  apply andb_prop in H2 as [H2 H3]. apply String.eqb_eq in H2. apply Z.eqb_eq in H3. auto.
Qed.

(** X9: whatever storage errors occur, every row that the time-slots
    endpoint returns is a row of the store after the call, belongs to the
    requested room and date, and has a label whose end time has not
    passed at the time of the call. *)
Theorem time_slots_reply_rows (now : Z) (rid : string) (today : Z) (f : slots_faults) (d : db)
    (rows : list availability_row) :
  fst (get_time_slots now rid today f d) = RSlots rows ->
  forall r, In r rows ->
  In r (room_availability (snd (get_time_slots now rid today f d))) /\
  ra_room_id r = rid /\ ra_date r = today /\ isTimeSlotValid now (ra_time_slot r) = true.
Proof.
  intros H r Hr. unfold get_time_slots in *.
  destruct (f_select f); [discriminate|].
  destruct (negb _) eqn:E1.
  { simpl in *. injection H as <-. apply filter_In in Hr as [Hr V].
    apply select_slots_in in Hr as (A & B & C). auto. }
  destruct (Nat.eqb (length (filter (isTimeSlotValid now) timeSlots)) 0).
  { simpl in H. inversion H; subst. contradiction. }
  destruct (run_inserts rid today _ (f_inserts f) d) as [d1 err].
  destruct err; [discriminate|]. destruct (f_fetch f); [discriminate|].
  simpl in *. injection H as <-. apply filter_In in Hr as [Hr V].
  apply select_slots_in in Hr as (A & B & C). auto.
Qed.

Lemma time_slots_reply_rows_witness :
  exists rows, fst (get_time_slots (hours 11) "R2" 100 no_slots_faults empty_db) = RSlots rows /\
    forall r, In r rows ->
      ra_room_id r = "R2" /\ ra_date r = 100 /\ isTimeSlotValid (hours 11) (ra_time_slot r) = true.
Proof.
  eexists. split; [vm_compute; reflexivity|].
  intros r Hr.
  destruct (time_slots_reply_rows (hours 11) "R2" 100 no_slots_faults empty_db _
              (eq_refl : fst (get_time_slots (hours 11) "R2" 100 no_slots_faults empty_db) =
                         RSlots (filter (fun r => isTimeSlotValid (hours 11) (ra_time_slot r))
                                  (select_slots "R2" 100
                                     (snd (get_time_slots (hours 11) "R2" 100
                                             no_slots_faults empty_db)))))
              r) as (_ & H); [|exact H].
  exact Hr.
Defined.

(** ** POST /api/rooms on a fresh id *)

Lemma insert_slots_fresh (rid : string) (ts : list (Z * string)) :
  forall (fs : list bool) (d : db),
  NoDup ts -> forallb negb fs = true ->
  (forall r p, In r (room_availability d) -> In p ts -> slot_key rid (fst p) (snd p) r = false) ->
  insert_slots rid ts fs d =
    mkDb (rooms d)
         (room_availability d ++ map (fun p => mkAvail (snd p) Free rid (fst p) None None) ts)
         (bookings d).
Proof.
  induction ts as [|[date l] rest IH]; intros fs d N Hf Hfresh; simpl.
  - rewrite app_nil_r. destruct d; reflexivity.
  - destruct (no_fault_hd_tl fs Hf) as [H1 H2]. rewrite H1.
    inversion N as [|p ps Hnin N' Heq]; subst.
    assert (E0 : existsb (slot_key rid date l) (room_availability d) = false).
    { apply not_true_is_false. intros E. apply existsb_exists in E as [r [Hr Kr]].
      pose proof (Hfresh r (date, l) Hr (or_introl eq_refl)) as Fr. simpl in Fr. congruence. }
    unfold insert_slot, insert_ignore_slot. rewrite E0.
    rewrite IH; [|exact N'|exact H2|].
    + simpl. rewrite <- app_assoc. reflexivity.
    + intros r p Hr Hp. simpl in Hr. apply in_app_or in Hr as [Hr|[<-|[]]].
      * apply Hfresh; [exact Hr|right; exact Hp].
      * apply not_true_is_false. intros K. apply slot_key_row_key in K.
        unfold row_key in K. simpl in K. injection K as K1 K2.
        apply Hnin. destruct p as [p1 p2]. simpl in *. subst. exact Hp.
Qed.

(** X10: creating a room under an id that neither the rooms table nor any
    slot row uses yet, with the room insert and every slot insert
    succeeding, appends the room with [is_disabled = 0] and appends
    exactly eight free, unbound slot rows: the four labels for today, then
    the four for tomorrow; the bookings are untouched. *)
Theorem create_room_fresh (rid : string) (today tomorrow : Z) (fs : list bool) (d : db) :
  today <> tomorrow ->
  existsb (fun rm => String.eqb (rm_id rm) rid) (rooms d) = false ->
  (forall r, In r (room_availability d) -> ra_room_id r <> rid) ->
  forallb negb fs = true ->
  create_room rid today tomorrow false fs d =
    (RSuccess "",
     mkDb (rooms d ++ [mkRoom rid 0])
          (room_availability d ++
             map (fun l => mkAvail l Free rid today None None) timeSlots ++
             map (fun l => mkAvail l Free rid tomorrow None None) timeSlots)
          (bookings d)).
Proof.
  intros Hday Hroom Hrows Hf. unfold create_room. rewrite Hroom. simpl orb.
  cbv zeta. f_equal.
  rewrite insert_slots_fresh; [simpl; reflexivity| |exact Hf|].
  - unfold timeSlots. simpl.
    repeat constructor; simpl; intuition congruence.
  - intros r p Hr _. simpl in Hr. unfold slot_key.
    assert (E : String.eqb (ra_room_id r) rid = false)
      by (apply String.eqb_neq; exact (Hrows r Hr)).
    now rewrite E.
Qed.

Lemma create_room_fresh_witness :
  create_room "R1" 100 101 false [] empty_db =
    (RSuccess "",
     mkDb [mkRoom "R1" 0]
          (map (fun l => mkAvail l Free "R1" 100 None None) timeSlots ++
           map (fun l => mkAvail l Free "R1" 101 None None) timeSlots)
          []).
Proof.
  apply (create_room_fresh "R1" 100 101 [] empty_db).
  - discriminate.
  - reflexivity.
  - intros r [].
  - reflexivity.
Defined.

(** ** isTimeSlotValid over the day *)

(** X11: a time-slot label that is valid at some time of day is valid at
    every earlier time of the same day; once a slot has ended it stays
    unbookable (and is no longer listed) for the rest of the day. *)
Theorem slot_validity_monotone (now now' : Z) (l : string) :
  now' <= now -> isTimeSlotValid now l = true -> isTimeSlotValid now' l = true.
Proof.
  intros Hle. unfold isTimeSlotValid.
  destruct (JS.split "-" l) as [|s0 [|endTime [|x rest]]]; try discriminate.
  destruct (JS.parseInt _) as [h|]; [|discriminate].
  destruct (match nth_error _ 1 with Some m => JS.parseInt m | None => None end) as [m|];
    [|discriminate].
  rewrite !Z.ltb_lt. lia.
Qed.

Lemma slot_validity_monotone_witness :
  hours 8 <= hours 9 /\ isTimeSlotValid (hours 9) "08:00-10:00" = true /\
  isTimeSlotValid (hours 8) "08:00-10:00" = true.
Proof.
  split; [unfold hours; lia|]. split; [reflexivity|].
  apply (slot_validity_monotone (hours 9) (hours 8)); [unfold hours; lia|reflexivity].
Defined.

(** X12: each configured slot stays bookable until its end time, not its
    start time: at time of day [now] (milliseconds since local midnight),
    08:00-10:00 is valid exactly when [now] is before 10:00, 10:00-12:00
    before 12:00, 13:00-15:00 before 15:00 and 15:00-17:00 before 17:00. *)
Theorem configured_slots_valid_until_end (now : Z) :
  isTimeSlotValid now "08:00-10:00" = (now <? hours 10) /\
  isTimeSlotValid now "10:00-12:00" = (now <? hours 12) /\
  isTimeSlotValid now "13:00-15:00" = (now <? hours 15) /\
  isTimeSlotValid now "15:00-17:00" = (now <? hours 17).
Proof. repeat split; reflexivity. Qed.

(** ** POST /api/login *)

(** X13: a login that succeeds took a string email and a string password
    from the body, ran its query, and [argon2.verify] accepted the
    password against the stored hash of the first user row whose email
    matches; the reply carries that row's id, name and role, echoes the
    email as sent, and derives the user type from the email as sent (not
    from the stored one). *)
Theorem login_ok_sound (email_eq : string -> string -> bool)
    (verify : string -> string -> option bool) (fault : bool) (users : list user) (b : body)
    (uid name em role ut : string) :
  post_login email_eq verify fault users b = LoginOk uid name em role ut ->
  exists u p rest,
    body_get "email" b = JStr em /\ body_get "password" b = JStr p /\ fault = false /\
    filter (fun u => email_eq (u_email u) em) users = u :: rest /\
    verify (u_password u) p = Some true /\
    uid = u_id u /\ name = u_full_name u /\ role = u_role u /\ ut = userType em.
Proof.
  unfold post_login, login_handler. intros H.
  destruct (body_present "POST" b); [|discriminate].
  destruct (negb _); [discriminate|].
  destruct (body_get "email" b) as [| | | | |e|] eqn:E; try discriminate;
  destruct (body_get "password" b) as [| | | | |p|] eqn:P; try discriminate.
  destruct fault; [discriminate|].
  destruct (filter _ users) as [|u rest] eqn:F; [discriminate|].
  destruct (verify (u_password u) p) as [[|]|] eqn:V; try discriminate.
  injection H as <- <- <- <- <-.
  exists u, p, rest. auto 10.
Qed.

Lemma login_ok_sound_witness :
  exists u p rest,
    body_get "email" [("email", JStr "a@mfu.th"); ("password", JStr "pw")] = JStr "a@mfu.th" /\
    body_get "password" [("email", JStr "a@mfu.th"); ("password", JStr "pw")] = JStr p /\
    false = false /\
    filter (fun u => String.eqb (u_email u) "a@mfu.th")
           [mkUser "U1" "Ann" "a@mfu.th" "pw" "staff"] = u :: rest /\
    (fun h q => Some (String.eqb h q)) (u_password u) p = Some true /\
    "U1" = u_id u /\ "Ann" = u_full_name u /\ "staff" = u_role u /\ "staff" = userType "a@mfu.th".
Proof.
  apply (login_ok_sound String.eqb (fun h q => Some (String.eqb h q)) false
           [mkUser "U1" "Ann" "a@mfu.th" "pw" "staff"]
           [("email", JStr "a@mfu.th"); ("password", JStr "pw")]).
  reflexivity.
Defined.

(** X14: for a well-formed request (non-empty string email and password)
    whose query runs, an email that matches no user and a password that
    [argon2.verify] rejects for the matching user get the same reply,
    401 'Invalid login credentials': the reply does not tell which of the
    two was wrong. *)
Theorem login_unknown_email_like_wrong_password (email_eq : string -> string -> bool)
    (verify : string -> string -> option bool) (users1 users2 : list user) (b : body)
    (e p : string) :
  body_get "email" b = JStr e -> body_get "password" b = JStr p ->
  e <> "" -> p <> "" ->
  filter (fun u => email_eq (u_email u) e) users1 = [] ->
  (exists u rest, filter (fun u => email_eq (u_email u) e) users2 = u :: rest /\
                  verify (u_password u) p = Some false) ->
  post_login email_eq verify false users1 b = LoginError 401 "Invalid login credentials" /\
  post_login email_eq verify false users2 b = LoginError 401 "Invalid login credentials".
Proof.
  intros He Hp Hne Hpe F1 (u & rest & F2 & V).
  assert (Bp : body_present "POST" b = true).
  { unfold body_present. destruct b; [discriminate|reflexivity]. }
  assert (T : js_truthy (JStr e) && js_truthy (JStr p) = true).
  { simpl. unfold JS.truthy. apply String.eqb_neq in Hne, Hpe. now rewrite Hne, Hpe. }
  unfold post_login, login_handler. rewrite Bp, He, Hp, T. simpl negb. cbv iota.
  rewrite F1, F2, V. auto.
Qed.

Lemma login_unknown_email_like_wrong_password_witness :
  post_login String.eqb (fun h q => Some (String.eqb h q)) false []
             [("email", JStr "a@mfu.th"); ("password", JStr "bad")] =
    LoginError 401 "Invalid login credentials" /\
  post_login String.eqb (fun h q => Some (String.eqb h q)) false
             [mkUser "U1" "Ann" "a@mfu.th" "pw" "staff"]
             [("email", JStr "a@mfu.th"); ("password", JStr "bad")] =
    LoginError 401 "Invalid login credentials".
Proof.
  apply (login_unknown_email_like_wrong_password String.eqb (fun h q => Some (String.eqb h q))
           [] [mkUser "U1" "Ann" "a@mfu.th" "pw" "staff"]
           [("email", JStr "a@mfu.th"); ("password", JStr "bad")] "a@mfu.th" "bad");
    try reflexivity; try discriminate.
  eexists. eexists. split; reflexivity.
Defined.

(** ** The per-slot disable and the rooms table *)

(** X15: a per-slot disable never changes the rooms table, even when it
    disables the last free slot of the day: [COUNT( * )] arrives as a
    number and [SUM(status = 'disabled')] as a DECIMAL string (NULL over
    no rows), so [total === disabled] never holds and the room-level
    update is never issued. *)
Theorem disable_slot_keeps_rooms (rid ts : string) (today : Z)
    (f : slot_disable_faults) (d : db) :
  rooms (snd (disable_slot rid ts today f d)) = rooms d.
Proof.
  unfold disable_slot. split_ifs; try reflexivity.
  exfalso.
  match goal with
  | H : cell_strict_eq _ _ && _ = true |- _ =>
      apply andb_prop in H as [H _]; revert H
  end.
  match goal with
  | |- context [match ?l with [] => CellNull | _ :: _ => _ end] => destruct l
  end; discriminate.
Qed.
